(** * confluence-backend: the POST /generate-confluence gateway

    A shallow embedding of the Express application of this repository
    (the revision with the required-field validation, and the
    [multer.diskStorage] configuration that both revisions share),
    followed by the properties of its upload pipeline.

    Layout: JavaScript values and strings, the temporary store and the
    event trace, the multer intake, the request handler, then the
    theorems. *)

From Stdlib Require Import Ascii DecimalN.
From stdpp Require Import gmap list strings.

Local Open Scope N_scope.

(** ** JavaScript strings

    A JavaScript string is a sequence of UTF-16 code units. *)

Abbreviation jstring := (list N).

Fixpoint lit (s : string) : jstring :=
  match s with
  | EmptyString => []
  | String a r => N_of_ascii a :: lit r
  end.

(** The character class [\s] of a regular expression without the [u]
    flag: WhiteSpace and LineTerminator code units. *)
Definition is_space (c : N) : bool :=
  ((9 <=? c) && (c <=? 13)) || (c =? 32) || (c =? 160) || (c =? 0x1680)
  || ((0x2000 <=? c) && (c <=? 0x200a)) || (c =? 0x2028) || (c =? 0x2029)
  || (c =? 0x202f) || (c =? 0x205f) || (c =? 0x3000) || (c =? 0xfeff).

Definition plus_sign : N := 43.

(** [s.replace(/\s+/g, '+')]: [in_run] tells whether the previous code
    unit belonged to a whitespace run that has already been replaced. *)
Fixpoint replace_runs (in_run : bool) (s : jstring) : jstring :=
  match s with
  | [] => []
  | c :: r =>
      if is_space c
      then (if in_run then replace_runs true r
            else plus_sign :: replace_runs true r)
      else c :: replace_runs false r
  end.

Definition replace_whitespace (s : jstring) : jstring := replace_runs false s.

(** Decimal digits of a number, as [Number.prototype.toString] prints a
    non-negative integer below 10^21. *)
Fixpoint uint_codes (d : Decimal.uint) : jstring :=
  match d with
  | Decimal.Nil => []
  | Decimal.D0 r => 48 :: uint_codes r
  | Decimal.D1 r => 49 :: uint_codes r
  | Decimal.D2 r => 50 :: uint_codes r
  | Decimal.D3 r => 51 :: uint_codes r
  | Decimal.D4 r => 52 :: uint_codes r
  | Decimal.D5 r => 53 :: uint_codes r
  | Decimal.D6 r => 54 :: uint_codes r
  | Decimal.D7 r => 55 :: uint_codes r
  | Decimal.D8 r => 56 :: uint_codes r
  | Decimal.D9 r => 57 :: uint_codes r
  end.

Definition decimal_N (n : N) : jstring := uint_codes (N.to_uint n).

(** ** JavaScript values

    The values a parsed request body or an upstream JSON body can hold.
    A number is held as the string that Number::toString gives for it
    ([0], [7], [1e+21], [NaN]): the handler only tests numbers for
    truthiness and prints them, and that string decides both. [JObj] is
    an object whose prototype is [Object.prototype], as [JSON.parse]
    and body-parser build; [JBare] is an object without a prototype, as
    multer builds for [req.body] and for nested fields. An object lists
    its own properties in enumeration order, and no property holds a
    function. *)

Inductive jsval : Type :=
  | JUndefined
  | JNull
  | JBool (b : bool)
  | JNum (repr : jstring)
  | JStr (s : jstring)
  | JArr (items : list jsval)
  | JObj (props : list (jstring * jsval))
  | JBare (props : list (jstring * jsval)).

(** ToBoolean. *)
Definition truthy (v : jsval) : bool :=
  match v with
  | JUndefined | JNull => false
  | JBool b => b
  | JNum r => negb (bool_decide (r = lit "0" \/ r = lit "NaN"))
  | JStr s => match s with [] => false | _ => true end
  | JArr _ | JObj _ | JBare _ => true
  end.

(** [a || b]. *)
Definition js_or (a b : jsval) : jsval := if truthy a then a else b.

(** [typeof v]. *)
Definition typeof (v : jsval) : jstring :=
  match v with
  | JUndefined => lit "undefined"
  | JBool _ => lit "boolean"
  | JNum _ => lit "number"
  | JStr _ => lit "string"
  | JNull | JArr _ | JObj _ | JBare _ => lit "object"
  end.

Fixpoint assoc (k : jstring) (props : list (jstring * jsval)) : jsval :=
  match props with
  | [] => JUndefined
  | (k', v) :: r => if decide (k = k') then v else assoc k r
  end.

(** Property read [v.k] for a name [k] that no prototype defines, also
    under optional chaining [v?.k]: only an object answers, with its
    own property. *)
Definition get (v : jsval) (k : string) : jsval :=
  match v with
  | JObj props | JBare props => assoc (lit k) props
  | _ => JUndefined
  end.

(** Whether an object has an own property [k]. *)
Definition has_own (k : jstring) (props : list (jstring * jsval)) : bool :=
  bool_decide (k ∈ map fst props).

(** ToString, as a template literal applies it; [None] when the
    conversion throws a TypeError. An array joins its elements with
    commas, [null] and [undefined] counting as empty. An object is
    converted by its [toString] method: [Object.prototype.toString]
    answers for a [JObj] unless an own property [toString] (never a
    function here) hides it, and then [valueOf] cannot give a primitive
    either; a [JBare] object has no method at all. *)
Fixpoint ToString (v : jsval) : option jstring :=
  match v with
  | JUndefined => Some (lit "undefined")
  | JNull => Some (lit "null")
  | JBool true => Some (lit "true")
  | JBool false => Some (lit "false")
  | JNum r => Some r
  | JStr s => Some s
  | JArr items =>
      (fix join (l : list jsval) : option jstring :=
         match l with
         | [] => Some []
         | x :: r =>
             match (match x with
                    | JUndefined | JNull => Some []
                    | _ => ToString x
                    end) with
             | None => None
             | Some sx =>
                 match r with
                 | [] => Some sx
                 | _ => match join r with
                        | None => None
                        | Some sr => Some (sx ++ 44 :: sr)
                        end
                 end
             end
         end) items
  | JObj props =>
      if has_own (lit "toString") props then None else Some (lit "[object Object]")
  | JBare _ => None
  end.

(** Object literals. *)
Definition prop (k : string) (v : jsval) : jstring * jsval := (lit k, v).
Definition str (s : string) : jsval := JStr (lit s).

(** ** The world outside the handler

    [fs] is the set of files present under [uploads/] (the Temporary
    Store); [trace] records, oldest first, the effects that leave the
    process or touch the store. *)

Inductive PartBody : Type :=
  | Json (v : jsval)              (* the text [JSON.stringify(v)] *)
  | ReadStream (path : jstring).  (* [fs.createReadStream(path)] *)

(** One [formData.append(name, body, {filename, contentType})]. *)
Record Part : Type := mkPart {
  part_name : jstring;
  part_body : PartBody;
  part_filename : option jstring;
  part_contentType : option jstring
}.

(** One [axios.post(url, formData, {timeout})]. *)
Record Call : Type := mkCall {
  call_url : jstring;
  call_form : list Part;
  call_timeout : Z
}.

(** What [res] sends: [res.status(s).json(b)], or the page that
    Express's default error handler writes ([json_body = None]). *)
Record Response : Type := mkResponse {
  status : Z;
  json_body : option jsval
}.

Inductive Event : Type :=
  | EvWrite (path : jstring)               (* a file stored by multer *)
  | EvUnlink (path : jstring) (ok : bool)  (* an unlink, and whether the file was there *)
  | EvPost (c : Call)                      (* an outbound call *)
  | EvSend (r : Response).                 (* the client response *)

Record World : Type := mkWorld {
  fs : gset jstring;
  trace : list Event
}.

Definition emit (e : Event) (w : World) : World :=
  {| fs := fs w; trace := trace w ++ [e] |}.

Definition write_file (path : jstring) (w : World) : World :=
  emit (EvWrite path) {| fs := {[path]} ∪ fs w; trace := trace w |}.

(** An unlink whose failure is only logged ([fs.unlinkSync(path)] under
    a [try]/[catch], or multer's own removal): the file goes if it is
    there, and the ENOENT of a missing file is swallowed. *)
Definition unlink_logged (path : jstring) (w : World) : World :=
  emit (EvUnlink path (bool_decide (path ∈ fs w)))
       {| fs := fs w ∖ {[path]}; trace := trace w |}.

(** A JavaScript exception or promise rejection: an [Error] with its
    message, the [status] property Express looks at, and the [response]
    and [request] properties that axios sets. *)
Record UpstreamResponse : Type := mkUpstream {
  up_status : Z;
  up_data : jsval
}.

Record JsError : Type := mkError {
  err_message : jstring;
  err_status : option Z;
  err_response : option UpstreamResponse;
  err_request : bool
}.

(** [new Error(msg)] and the TypeError of calling a missing method. *)
Definition new_Error (msg : jstring) : JsError :=
  {| err_message := msg; err_status := None;
     err_response := None; err_request := false |}.

Inductive AxiosOutcome : Type :=
  | Resolved (r : UpstreamResponse)
  | Rejected (e : JsError).

(** The process environment: [process.env.BASE_DOMAIN], a string or
    unset, and the upstream service behind [axios.post]. *)
Record Env : Type := mkEnv {
  BASE_DOMAIN : option jstring;
  axios_post : Call -> AxiosOutcome
}.

(** An environment variable inside a template literal: an unset one
    prints as [undefined]. *)
Definition env_text (v : option jstring) : jstring := default (lit "undefined") v.

(** Effectful code: a state transformer that returns or throws. *)
Definition M (A : Type) : Type := World -> World * (JsError + A).

Definition ret {A} (a : A) : M A := fun w => (w, inr a).
Definition throw {A} (e : JsError) : M A := fun w => (w, inl e).
Definition bind {A B} (m : M A) (k : A -> M B) : M B :=
  fun w => match m w with
           | (w', inr a) => k a w'
           | (w', inl e) => (w', inl e)
           end.
Definition effect (f : World -> World) : M unit := fun w => (f w, inr tt).

Declare Scope js_scope.
Delimit Scope js_scope with js.
Notation "x <- m ;; k" := (bind m (fun x => k))
  (at level 100, m at next level, right associativity) : js_scope.
Notation "m ;;; k" := (bind m (fun _ => k))
  (at level 100, right associativity) : js_scope.

(** ** Upload intake (multer)

    What multer hands to the storage engine for one file part, with the
    reading of [Date.now()] taken when its [filename] callback runs. *)

Record IncomingFile : Type := mkIncoming {
  in_fieldname : jstring;
  in_originalname : jstring;
  in_mimetype : jstring;
  in_size : N;
  in_now : N
}.

(** An element of [req.files]. *)
Record UploadedFile : Type := mkFile {
  fieldname : jstring;
  originalname : jstring;
  mimetype : jstring;
  size : N;
  path : jstring
}.

(** [filename: cb(null, Date.now() + '-' + file.originalname)]. *)
Definition filename (f : IncomingFile) : jstring :=
  decimal_N (in_now f) ++ lit "-" ++ in_originalname f.

(** [destination: cb(null, 'uploads/')]; multer joins the directory and
    the file name (busboy has already reduced the client's file name to
    its base name, so the join is a concatenation). *)
Definition uploadDir : jstring := lit "uploads/".

Definition stored_path (f : IncomingFile) : jstring := uploadDir ++ filename f.

Definition allowedFields : list jstring :=
  [lit "tddIrdFiles"; lit "postmanFiles"; lit "commFiles"; lit "files"].

(** [fileFilter]: accept, or fail with [Unexpected field: <name>]. *)
Definition fileFilter (f : IncomingFile) : JsError + bool :=
  if bool_decide (in_fieldname f ∈ allowedFields)
  then inr true
  else inl (new_Error (lit "Unexpected field: " ++ in_fieldname f)).

Definition store_file (f : IncomingFile) : UploadedFile :=
  {| fieldname := in_fieldname f; originalname := in_originalname f;
     mimetype := in_mimetype f; size := in_size f; path := stored_path f |}.

(** multer's abort: every file stored so far is removed again. *)
Definition removeUploadedFiles (files : list UploadedFile) (w : World) : World :=
  fold_left (fun w f => unlink_logged (path f) w) files w.

(** [upload.any()] over the file parts of a multipart body that carry
    a file name, in arrival order. An error of the filter stops the
    intake: the files stored so
    far are removed and the error goes to [next(err)]. *)
Fixpoint upload_parts (parts : list IncomingFile) (acc : list UploadedFile)
    : M (list UploadedFile) :=
  match parts with
  | [] => ret acc
  | p :: rest =>
      match fileFilter p with
      | inr true =>
          (effect (write_file (stored_path p)) ;;;
           upload_parts rest (acc ++ [store_file p]))%js
      | inr false => upload_parts rest acc
      | inl e => (effect (removeUploadedFiles acc) ;;; throw e)%js
      end
  end.

(** An inbound request as the middleware chain sees it: the parsed text
    fields ([req.body]: from multer for a multipart body, from
    body-parser otherwise, [undefined] when nothing was parsed), its
    content type, and the file parts of a multipart body ([None] for any
    other content type: multer then leaves [req.files] unset). *)
Record Incoming : Type := mkInc {
  inc_content_type : jsval;
  inc_body : jsval;
  inc_file_parts : option (list IncomingFile)
}.

(** [req] as the route handler receives it. *)
Record Request : Type := mkReq {
  content_type : jsval;
  body : jsval;
  files : option (list UploadedFile)
}.

(** multer drops a file part whose file name is empty before the
    filter sees it: [if (!filename) return fileStream.resume()]. *)
Definition named_parts (parts : list IncomingFile) : list IncomingFile :=
  filter (fun p => in_originalname p <> []) parts.

Definition upload_any (i : Incoming) : M Request :=
  match inc_file_parts i with
  | None =>
      ret {| content_type := inc_content_type i; body := inc_body i; files := None |}
  | Some parts =>
      (stored <- upload_parts (named_parts parts) [] ;;
       ret {| content_type := inc_content_type i; body := inc_body i;
              files := Some stored |})%js
  end.

(** Express's default error handler, reached through [next(err)] since
    the application installs no error middleware: the status is the
    error's own when it carries a 4xx or 5xx one, else 500. *)
Definition default_error_status (e : JsError) : Z :=
  match err_status e with
  | Some s => if bool_decide (400 <= s < 600)%Z then s else 500%Z
  | None => 500%Z
  end.

Definition default_error_handler (e : JsError) (w : World) : World :=
  emit (EvSend {| status := default_error_status e; json_body := None |}) w.

(** ** The route handler of POST /generate-confluence *)

Definition WIKI_GENERATE_PATH : jstring := lit "/wikigenerate".

(** [res.status(s).json(b)]. *)
Definition res_json (s : Z) (b : jsval) : M unit :=
  effect (emit (EvSend {| status := s; json_body := Some b |})).

(** [req.files?.length || 0]. *)
Definition files_length_or_0 (fl : option (list UploadedFile)) : jsval :=
  match fl with
  | Some l => JNum (decimal_N (N.of_nat (length l)))
  | None => JNum (lit "0")
  end.

(** The value of [req.files && req.files.length > 0]. *)
Definition files_present (fl : option (list UploadedFile)) : jsval :=
  match fl with
  | None => JUndefined
  | Some l => JBool (bool_decide (0 < length l)%nat)
  end.


(** The object literal [pageData], over the destructured body [b]. *)
Definition pageData (b : jsval) (fl : option (list UploadedFile)) : jsval :=
  JObj [ prop "apiType" (get b "apiType");
         prop "fetchPropertyFile" (get b "fetchPropertyFile");
         prop "selectedGitOrg" (get b "selectedGitOrg");
         prop "wikiSpaceKey" (get b "wikiSpaceKey");
         prop "pageToBeCreatedTitle" (get b "pageToBeCreatedTitle");
         prop "pageToBeCreatedParentPageTitle" (get b "pageToBeCreatedParentPageTitle");
         prop "appName" (get b "appName");
         prop "l0ProductionSupport" (get b "l0ProductionSupport");
         prop "l0ProductionSupportEmail" (get b "l0ProductionSupportEmail");
         prop "l2MulesoftSupport" (get b "l2MulesoftSupport");
         prop "l2MulesoftSupportEmail" (get b "l2MulesoftSupportEmail");
         prop "integrationDevTeam" (get b "integrationDevTeam");
         prop "integrationDevTeamEmail" (get b "integrationDevTeamEmail");
         prop "businessTeam" (get b "businessTeam");
         prop "businessTeamEmail" (get b "businessTeamEmail");
         prop "hasFiles" (files_present fl) ].

(** [formData.append]: the form keeps its parts in the order of the
    calls. (The boundary string of the encoded body is not modelled.) *)
Definition append (p : Part) (form : list Part) : list Part := form ++ [p].

Definition data_part (pd : jsval) : Part :=
  {| part_name := lit "data"; part_body := Json pd;
     part_filename := None; part_contentType := None |}.

Definition file_part (name : string) (f : UploadedFile) : Part :=
  {| part_name := lit name; part_body := ReadStream (path f);
     part_filename := Some (originalname f);
     part_contentType := Some (mimetype f) |}.

(** [req.files.filter(file => file.fieldname === name)]. *)
Definition by_field (name : string) (l : list UploadedFile) : list UploadedFile :=
  filter (fun f => fieldname f = lit name) l.

(** One category block: [if (cat.length > 0) cat.forEach(file => formData.append(name, ...))]. *)
Definition append_category (name : string) (l : list UploadedFile)
    (form : list Part) : list Part :=
  let cat := by_field name l in
  if bool_decide (0 < length cat)%nat
  then fold_left (fun form f => append (file_part name f) form) cat form
  else form.

Definition build_form (pd : jsval) (fl : option (list UploadedFile)) : list Part :=
  let form := append (data_part pd) [] in
  match fl with
  | Some l =>
      if truthy (files_present fl)
      then append_category "files" l
             (append_category "commFiles" l
                (append_category "postmanFiles" l
                   (append_category "tddIrdFiles" l form)))
      else form
  | None => form
  end.

(** The arguments of [axios.post(url, formData, {headers, httpsAgent,
    timeout: 300000})]. *)
Definition make_call (env : Env) (form : list Part) : Call :=
  {| call_url := env_text (BASE_DOMAIN env) ++ WIKI_GENERATE_PATH;
     call_form := form; call_timeout := 300000 |}.

(** [await axios.post(...)]: the promise resolves, or its rejection is
    thrown. *)
Definition post_upstream (env : Env) (c : Call) : M UpstreamResponse :=
  fun w =>
    match axios_post env c with
    | Resolved r => (emit (EvPost c) w, inr r)
    | Rejected e => (emit (EvPost c) w, inl e)
    end.

(** [title?.replace(/\s+/g, '+')]: only a string has the method. *)
Definition optional_replace (title : jsval) : M jsval :=
  match title with
  | JUndefined | JNull => ret JUndefined
  | JStr s => ret (JStr (replace_whitespace s))
  | _ => throw (new_Error (lit "pageToBeCreatedTitle?.replace is not a function"))
  end.

(** A substitution [${v}] of a template literal. *)
Definition to_string (v : jsval) : M jstring :=
  match ToString v with
  | Some s => ret s
  | None => throw (new_Error (lit "Cannot convert object to primitive value"))
  end.

(** The template literal of the fallback: each substitution is
    evaluated and converted in turn, the space key before the title. *)
Definition fallback_url (key title : jsval) : M jsval :=
  (k <- to_string key ;;
   replaced <- optional_replace title ;;
   t <- to_string replaced ;;
   ret (JStr (lit "https://wiki.intel.com/display/" ++ k ++ lit "/" ++ t)))%js.

(** [a || rest], with [rest] evaluated only when [a] is falsy. *)
Definition or_else (a : jsval) (rest : M jsval) : M jsval :=
  if truthy a then ret a else rest.

Definition extract_pageUrl (data key title : jsval) : M jsval :=
  or_else (get data "pageURL")
    (or_else (get data "pageUrl")
       (or_else (get data "confluencePageUrl")
          (or_else (get data "url")
             (fallback_url key title)))).

(** The cleanup block, the same in the [try] and in the [catch]. *)
Definition cleanup (fl : option (list UploadedFile)) : M unit :=
  match fl with
  | Some l =>
      if truthy (files_present fl)
      then effect (fun w => fold_left (fun w f => unlink_logged (path f) w) l w)
      else ret tt
  | None => ret tt
  end.

Definition malformed_body_response (req : Request) : jsval :=
  JObj [ prop "status" (str "error");
         prop "message" (str "Request body is missing or malformed. Make sure you're sending form data correctly.");
         prop "debug" (JObj [ prop "bodyType" (JStr (typeof (body req)));
                              prop "bodyValue" (body req);
                              prop "contentType" (content_type req);
                              prop "filesReceived" (files_length_or_0 (files req));
                              prop "expectedContentType" (str "multipart/form-data") ]) ].

Definition required_response (field : string) : jsval :=
  JObj [ prop "status" (str "error");
         prop "message" (JStr (lit field ++ lit " is required")) ].

Definition success_response (pageUrl : jsval) : jsval :=
  JObj [ prop "message" (str "Confluence page generated successfully");
         prop "pageUrl" pageUrl ].

(** The body of the [try] block; each early [return] is a branch. *)
Definition try_block (env : Env) (req : Request) : M unit :=
  if negb (truthy (body req)) || negb (bool_decide (typeof (body req) = lit "object"))
  then res_json 400 (malformed_body_response req)
  else
    let b := js_or (body req) (JObj []) in
    let wikiSpaceKey := get b "wikiSpaceKey" in
    let pageToBeCreatedTitle := get b "pageToBeCreatedTitle" in
    if negb (truthy pageToBeCreatedTitle)
    then res_json 400 (required_response "pageToBeCreatedTitle")
    else if negb (truthy wikiSpaceKey)
    then res_json 400 (required_response "wikiSpaceKey")
    else
      (response <- post_upstream env
                     (make_call env (build_form (pageData b (files req)) (files req))) ;;
       pageUrl <- extract_pageUrl (up_data response) wikiSpaceKey pageToBeCreatedTitle ;;
       cleanup (files req) ;;;
       res_json 200 (success_response pageUrl))%js.

(** The [catch] block. *)
Definition catch_block (req : Request) (error : JsError) : M unit :=
  (cleanup (files req) ;;;
   match err_response error with
   | Some r =>
       res_json (up_status r)
         (JObj [ prop "status" (str "error");
                 prop "error" (str "Mulesoft API error");
                 prop "details" (up_data r);
                 prop "message" (JStr (err_message error)) ])
   | None =>
       if err_request error
       then res_json 500
              (JObj [ prop "status" (str "error");
                      prop "error" (str "No response from Mulesoft API");
                      prop "message" (str "Network or timeout error") ])
       else res_json 500
              (JObj [ prop "status" (str "error");
                      prop "error" (str "Failed to generate Confluence page");
                      prop "message" (JStr (err_message error)) ])
   end)%js.

Definition handler (env : Env) (req : Request) (w : World) : World :=
  match try_block env req w with
  | (w', inr _) => w'
  | (w', inl error) => fst (catch_block req error w')
  end.

(** [app.post("/generate-confluence", upload.any(), handler)]. *)
Definition post_generate_confluence (env : Env) (i : Incoming) (w : World) : World :=
  match upload_any i w with
  | (w', inr req) => handler env req w'
  | (w', inl e) => default_error_handler e w'
  end.

(** ** Observations on a trace *)

Definition responses (w : World) : list Response :=
  omap (fun e => match e with EvSend r => Some r | _ => None end) (trace w).

Definition outbound_calls (w : World) : list Call :=
  omap (fun e => match e with EvPost c => Some c | _ => None end) (trace w).

Definition is_unlink_of (p : jstring) (e : Event) : bool :=
  match e with
  | EvUnlink q _ => bool_decide (q = p)
  | _ => false
  end.

(** How often an unlink of [p] was attempted. *)
Definition unlink_count (p : jstring) (w : World) : nat :=
  length (filter (fun e => is_unlink_of p e = true) (trace w)).

Definition empty_world : World := {| fs := ∅; trace := [] |}.

(** The outbound call of a request that passes validation. *)
Definition request_call (env : Env) (req : Request) : Call :=
  make_call env (build_form (pageData (body req) (files req)) (files req)).

(** ** Vocabulary of the specification

    The definitions below follow the words of the specification; the
    theorems compare them with the code above. *)

(** A required field that is missing or empty. *)
Definition missing_or_empty (v : jsval) : Prop := v = JUndefined \/ v = JStr [].

(** The body is an object the handler can destructure: it passes the
    first guard. *)
Definition is_object (v : jsval) : bool :=
  truthy v && bool_decide (typeof v = lit "object").

(** The upstream fields that may carry the page URL, by priority. *)
Definition url_fields : list string :=
  ["pageURL"; "pageUrl"; "confluencePageUrl"; "url"]%string.

Definition is_present (v : jsval) : bool :=
  match v with JUndefined => false | _ => true end.

(** The first of the URL fields that the upstream body has at all. *)
Definition first_present (data : jsval) : option jsval :=
  find is_present (map (get data) url_fields).

(** The first of the URL fields whose value is truthy. *)
Definition first_truthy (data : jsval) : option jsval :=
  find truthy (map (get data) url_fields).

(** The fallback URL for a space key and a title. *)
Definition template_url (key title : jstring) : jsval :=
  JStr (lit "https://wiki.intel.com/display/" ++ key ++ lit "/"
        ++ replace_whitespace title).

(** A string that does not begin with whitespace. *)
Definition starts_plain (s : jstring) : Prop :=
  match s with
  | [] => True
  | c :: _ => is_space c = false
  end.

(** [runs_replaced s r]: [r] is [s] with every maximal run of
    whitespace replaced by one [+] and everything else kept. *)
Inductive runs_replaced : jstring -> jstring -> Prop :=
  | rr_end : runs_replaced [] []
  | rr_keep c s r :
      is_space c = false -> runs_replaced s r ->
      runs_replaced (c :: s) (c :: r)
  | rr_run ws s r :
      ws <> [] -> Forall (fun c => is_space c = true) ws -> starts_plain s ->
      runs_replaced s r ->
      runs_replaced (ws ++ s) (43 :: r).

(** All stored paths of a request differ pairwise. *)
Definition stored_paths_distinct (stored : list UploadedFile) : Prop :=
  forall i j f g, i <> j -> stored !! i = Some f -> stored !! j = Some g ->
                  path f <> path g.

(** The part that carries a file under its own field name. *)
Definition part_of (f : UploadedFile) : Part :=
  {| part_name := fieldname f; part_body := ReadStream (path f);
     part_filename := Some (originalname f);
     part_contentType := Some (mimetype f) |}.

Definition accepted (f : UploadedFile) : Prop := fieldname f ∈ allowedFields.

(** Files written to the store, in order. *)
Definition writes (w : World) : list jstring :=
  omap (fun e => match e with EvWrite p => Some p | _ => None end) (trace w).

(** The code units of the decimal digits. *)
Definition is_digit (c : N) : Prop := 48 <= c <= 57.

(** A file part the filter lets through. *)
Definition allowed (p : IncomingFile) : Prop := in_fieldname p ∈ allowedFields.

(** The store after multer has written every part of [parts]. *)
Definition write_all (parts : list IncomingFile) (w : World) : World :=
  fold_left (fun w p => write_file (stored_path p) w) parts w.

(** The store and trace after the cleanup block has run. *)
Definition unlink_all (fl : option (list UploadedFile)) (w : World) : World :=
  match fl with
  | Some l => fold_left (fun w f => unlink_logged (path f) w) l w
  | None => w
  end.

(** A request that passes the three guards of the handler. *)
Definition validated (req : Request) : Prop :=
  is_object (body req) = true /\
  truthy (get (body req) "pageToBeCreatedTitle") = true /\
  truthy (get (body req) "wikiSpaceKey") = true.

(** The upload fields in the order in which the handler appends their
    files. *)
Definition category_order : list string :=
  ["tddIrdFiles"; "postmanFiles"; "commFiles"; "files"]%string.

(** The parts of a form that carry the name [k]. *)
Definition parts_named (k : jstring) (form : list Part) : list Part :=
  filter (fun p => part_name p = k) form.

(** ** Sample requests *)

Definition upstream_ok (data : jsval) : Env :=
  {| BASE_DOMAIN := Some (lit "https://mule.example/v1");
     axios_post := fun _ => Resolved {| up_status := 200; up_data := data |} |}.

Definition upstream_fails (e : JsError) : Env :=
  {| BASE_DOMAIN := Some (lit "https://mule.example/v1");
     axios_post := fun _ => Rejected e |}.

Definition sample_file (field name : string) (now : N) : IncomingFile :=
  {| in_fieldname := lit field; in_originalname := lit name;
     in_mimetype := lit "text/plain"; in_size := 3; in_now := now |}.

Definition multipart (fields : list (jstring * jsval)) (parts : list IncomingFile)
    : Incoming :=
  {| inc_content_type := str "multipart/form-data; boundary=x";
     inc_body := JBare fields; inc_file_parts := Some parts |}.

(** Scenario A of the specification: both required fields, no files. *)
Definition scenario_A : Incoming :=
  multipart [prop "pageToBeCreatedTitle" (str "Service X");
             prop "wikiSpaceKey" (str "ENG")] [].

(** The same, as the handler receives it. *)
Definition request_A : Request :=
  {| content_type := str "multipart/form-data; boundary=x";
     body := JBare [prop "pageToBeCreatedTitle" (str "Service X");
                   prop "wikiSpaceKey" (str "ENG")];
     files := Some [] |}.

(** A valid request whose files arrive in mixed category order. *)
Definition mixed_files : list UploadedFile :=
  [store_file (sample_file "files" "notes.txt" 1700000000000);
   store_file (sample_file "tddIrdFiles" "design.pdf" 1700000000001);
   store_file (sample_file "files" "more.txt" 1700000000002);
   store_file (sample_file "postmanFiles" "api.json" 1700000000003)].

Definition request_mixed : Request :=
  {| content_type := str "multipart/form-data; boundary=x";
     body := JBare [prop "pageToBeCreatedTitle" (str "Service X");
                   prop "wikiSpaceKey" (str "ENG");
                   prop "hasFiles" (str "false")];
     files := Some mixed_files |}.

(** A valid multipart request that sent the title twice: multer then
    delivers the field as an array. *)
Definition request_title_twice : Request :=
  {| content_type := str "multipart/form-data; boundary=x";
     body := JBare [prop "pageToBeCreatedTitle" (JArr [str "Service X"; str "Service Y"]);
                   prop "wikiSpaceKey" (str "ENG")];
     files := Some [] |}.

(** Scenario B: one file under [tddIrdFiles], no [wikiSpaceKey]. *)
Definition scenario_B : Incoming :=
  multipart [prop "pageToBeCreatedTitle" (str "Service X")]
            [sample_file "tddIrdFiles" "design.pdf" 1700000000000].

(** Scenario D: a file under the field name [randomField], after an
    accepted one. *)
Definition scenario_D : Incoming :=
  multipart [prop "pageToBeCreatedTitle" (str "Service X");
             prop "wikiSpaceKey" (str "ENG")]
            [sample_file "files" "notes.txt" 1700000000000;
             sample_file "randomField" "x.bin" 1700000000001].

(** ** The test route *)

(** [POST /test-request]: the handler echoes the request. [url] and
    [headers] are [req.url] and [req.headers]. *)
Definition file_summary (f : UploadedFile) : jsval :=
  JObj [ prop "fieldname" (JStr (fieldname f));
         prop "originalname" (JStr (originalname f));
         prop "mimetype" (JStr (mimetype f));
         prop "size" (JNum (decimal_N (size f))) ].

Definition requestStructure (env : Env) (url headers : jsval) (req : Request) : jsval :=
  JObj [ prop "method" (str "POST");
         prop "url" url;
         prop "headers" headers;
         prop "body" (body req);
         prop "files" (match files req with
                       | Some l => JArr (map file_summary l)
                       | None => JUndefined
                       end);
         prop "forwardedTo" (JStr (env_text (BASE_DOMAIN env) ++ WIKI_GENERATE_PATH));
         prop "requestType" (str "multipart/form-data") ].

Definition test_request (env : Env) (url headers : jsval) (req : Request)
    (w : World) : World :=
  fst (res_json 200 (requestStructure env url headers req) w).

(** [app.post("/test-request", upload.any(), handler)]. *)
Definition post_test_request (env : Env) (url headers : jsval) (i : Incoming)
    (w : World) : World :=
  match upload_any i w with
  | (w', inr req) => test_request env url headers req w'
  | (w', inl e) => default_error_handler e w'
  end.

(** ** The earlier revision of the route (server.js)

    This revision installs no body parser, so the handler has a body
    only for a multipart request, where multer provides the text fields
    as an object and [req.files] as an array: the route is modelled on
    such requests, [fields] being the properties of [req.body]. *)

(** [fs.unlinkSync(path)] outside any [try]: a missing file throws. *)
Definition unlink_strict (p : jstring) : M unit :=
  fun w =>
    if bool_decide (p ∈ fs w)
    then (emit (EvUnlink p true) {| fs := fs w ∖ {[p]}; trace := trace w |}, inr tt)
    else (emit (EvUnlink p false) w,
          inl (new_Error (lit "ENOENT: no such file or directory, unlink '"
                          ++ p ++ lit "'"))).

(** [req.files.forEach(file => { fs.unlinkSync(file.path); })]: the
    first throw ends the loop. *)
Fixpoint unlink_each_strict (l : list UploadedFile) : M unit :=
  match l with
  | [] => ret tt
  | f :: rest => (unlink_strict (path f) ;;; unlink_each_strict rest)%js
  end.

Definition cleanup_strict (fl : option (list UploadedFile)) : M unit :=
  match fl with
  | Some l => if truthy (files_present fl) then unlink_each_strict l else ret tt
  | None => ret tt
  end.

(** [axios.post(url, formData, {headers, httpsAgent})]: no timeout is
    set, which for axios is [timeout: 0]. *)
Definition make_call_v1 (env : Env) (form : list Part) : Call :=
  {| call_url := env_text (BASE_DOMAIN env) ++ WIKI_GENERATE_PATH;
     call_form := form; call_timeout := 0 |}.

(** The outbound call of this revision: [pageData] is [req.body]. *)
Definition request_call_v1 (env : Env) (fields : list (jstring * jsval))
    (l : list UploadedFile) : Call :=
  make_call_v1 env (build_form (JBare fields) (Some l)).

Definition try_block_v1 (env : Env) (fields : list (jstring * jsval))
    (l : list UploadedFile) : M unit :=
  (response <- post_upstream env (request_call_v1 env fields l) ;;
   cleanup_strict (Some l) ;;;
   res_json 200 (up_data response))%js.

Definition failure_response_v1 : Response :=
  {| status := 500;
     json_body := Some (JObj [ prop "error" (str "Failed to generate Confluence page") ]) |}.

Definition catch_block_v1 (l : list UploadedFile) (error : JsError) : M unit :=
  (cleanup (Some l) ;;;
   res_json 500 (JObj [ prop "error" (str "Failed to generate Confluence page") ]))%js.

Definition handler_v1 (env : Env) (fields : list (jstring * jsval))
    (l : list UploadedFile) (w : World) : World :=
  match try_block_v1 env fields l w with
  | (w', inr _) => w'
  | (w', inl error) => fst (catch_block_v1 l error w')
  end.

Definition post_generate_confluence_v1 (env : Env) (fields : list (jstring * jsval))
    (parts : list IncomingFile) (w : World) : World :=
  match upload_parts (named_parts parts) [] w with
  | (w', inr l) => handler_v1 env fields l w'
  | (w', inl e) => default_error_handler e w'
  end.

(** ** More vocabulary *)

(** The code units that are neither whitespace nor [+]. *)
Definition is_plain (c : N) : Prop := is_space c = false /\ c <> plus_sign.

(** The events a run added to a trace. *)
Definition new_events (before after : World) : list Event :=
  drop (length (trace before)) (trace after).

(** A truthy value without a [replace] method. *)
Definition truthy_non_string (v : jsval) : Prop :=
  truthy v = true /\ forall s, v <> JStr s.

(** The files of a request, none when [req.files] is unset. *)
Definition request_files (req : Request) : list UploadedFile :=
  match files req with
  | Some l => l
  | None => []
  end.

Definition request_paths (req : Request) : list jstring :=
  map path (request_files req).

#[global] Instance validated_dec (req : Request) : Decision (validated req).
Proof. unfold validated. apply _. Defined.

(** The uncaught unlink loop runs to its end: the paths differ and each
    is in the store. *)
Definition all_unlinkable (l : list UploadedFile) (w : World) : Prop :=
  NoDup (map path l) /\ Forall (fun p => p ∈ fs w) (map path l).

#[global] Instance all_unlinkable_dec l w : Decision (all_unlinkable l w).
Proof. unfold all_unlinkable. apply _. Defined.

(** ** Text fields on the wire

    multer hands every text field of a multipart body to
    [appendField(req.body, name, value)] of the append-field package,
    which reads brackets in the name as a path. The model covers the
    names without a numeric segment [[<digits>]] and the values that
    stay under busboy's limit of one mebibyte whatever their encoding;
    for the others it gives no body. *)

(** What append-field can build: strings, arrays, and objects without
    prototype. *)
Inductive field_value : Type :=
  | FStr (s : jstring)
  | FArr (items : list field_value)
  | FObj (props : list (jstring * field_value)).

Fixpoint to_js (v : field_value) : jsval :=
  match v with
  | FStr s => JStr s
  | FArr items => JArr (map to_js items)
  | FObj props =>
      JBare ((fix each (ps : list (jstring * field_value)) : list (jstring * jsval) :=
                match ps with
                | [] => []
                | (k, x) :: r => (k, to_js x) :: each r
                end) props)
  end.

Definition to_js_props (props : list (jstring * field_value)) : list (jstring * jsval) :=
  map (fun kv => (fst kv, to_js (snd kv))) props.






















(** A text field as a client writes it. *)
Definition field (name value : string) : jstring * jstring := (lit name, lit value).




(** * Properties *)

(** ** Strings and numbers *)

Lemma lit_app (a b : string) : lit (a ++ b)%string = lit a ++ lit b.
Proof. induction a as [|c a IH]; simpl; [done | by rewrite IH]. Qed.

Lemma uint_codes_digits d : Forall is_digit (uint_codes d).
Proof.
  induction d; simpl; constructor; try assumption; unfold is_digit; lia.
Qed.

Lemma uint_codes_inj d1 d2 : uint_codes d1 = uint_codes d2 -> d1 = d2.
Proof.
  revert d2; induction d1; intros [] H; simpl in H;
    try discriminate; try reflexivity;
    injection H as H; f_equal; by apply IHd1.
Qed.

Lemma decimal_N_inj n m : decimal_N n = decimal_N m -> n = m.
Proof.
  unfold decimal_N. intros H%uint_codes_inj.
  rewrite <- (Unsigned.of_to n), <- (Unsigned.of_to m). by rewrite H.
Qed.

(** A run of digits closed by a separator that is no digit determines
    where it ends. *)
Lemma digits_sep_inj (sep : N) (a b x y : jstring) :
  ~ is_digit sep -> Forall is_digit a -> Forall is_digit b ->
  a ++ sep :: x = b ++ sep :: y -> a = b /\ x = y.
Proof.
  intros Hsep Ha; revert b.
  induction Ha as [|c a Hc Ha IH]; intros b Hb H.
  - destruct Hb as [|d b Hd Hb]; simpl in H.
    + by injection H.
    + injection H as -> _. contradiction.
  - destruct Hb as [|d b Hd Hb]; simpl in H.
    + injection H as -> _. contradiction.
    + injection H as -> H. destruct (IH b Hb H) as [-> ->]. done.
Qed.

Lemma filename_inj f g :
  filename f = filename g <->
  in_now f = in_now g /\ in_originalname f = in_originalname g.
Proof.
  unfold filename. split.
  - intros H. change (lit "-") with [45] in H. simpl in H.
    apply digits_sep_inj in H as [H1 H2];
      [| unfold is_digit; lia | apply uint_codes_digits ..].
    split; [by apply decimal_N_inj | done].
  - intros [-> ->]. done.
Qed.

Lemma stored_path_inj f g :
  stored_path f = stored_path g <->
  in_now f = in_now g /\ in_originalname f = in_originalname g.
Proof.
  unfold stored_path. rewrite <- filename_inj. split.
  - by intros H%app_inv_head.
  - by intros ->.
Qed.

(** ** Intake *)

Lemma fileFilter_allowed p : allowed p -> fileFilter p = inr true.
Proof. intros H. unfold fileFilter. by rewrite bool_decide_eq_true_2. Qed.

Lemma fileFilter_rejected p :
  ~ allowed p ->
  fileFilter p = inl (new_Error (lit "Unexpected field: " ++ in_fieldname p)).
Proof. intros H. unfold fileFilter. by rewrite bool_decide_eq_false_2. Qed.

Lemma upload_parts_accept parts : forall acc w,
  Forall allowed parts ->
  upload_parts parts acc w = (write_all parts w, inr (acc ++ map store_file parts)).
Proof.
  induction parts as [|p parts IH]; intros acc w Hall; simpl.
  - by rewrite app_nil_r.
  - apply Forall_cons in Hall as [Hp Hall].
    rewrite (fileFilter_allowed p Hp). unfold bind, effect; simpl.
    rewrite (IH _ _ Hall), <- app_assoc. done.
Qed.

Lemma upload_parts_reject ok bad rest : forall acc w,
  Forall allowed ok -> ~ allowed bad ->
  upload_parts (ok ++ bad :: rest) acc w =
    (removeUploadedFiles (acc ++ map store_file ok) (write_all ok w),
     inl (new_Error (lit "Unexpected field: " ++ in_fieldname bad))).
Proof.
  induction ok as [|p ok IH]; intros acc w Hall Hbad; simpl.
  - rewrite (fileFilter_rejected bad Hbad), app_nil_r. done.
  - apply Forall_cons in Hall as [Hp Hall].
    rewrite (fileFilter_allowed p Hp). unfold bind, effect; simpl.
    rewrite (IH _ _ Hall Hbad), <- app_assoc. done.
Qed.

(** The parts of a body split at the first one the filter refuses. *)
Lemma first_refused parts :
  Exists (fun p => ~ allowed p) parts ->
  exists ok bad rest, parts = ok ++ bad :: rest /\ Forall allowed ok /\ ~ allowed bad.
Proof.
  induction 1 as [p parts Hp | p parts Hex IH].
  - exists [], p, parts. by repeat split.
  - destruct (decide (allowed p)) as [Hp | Hp].
    + destruct IH as (ok & bad & rest & -> & Hok & Hbad).
      exists (p :: ok), bad, rest. repeat split; [by constructor | done].
    + exists [], p, parts. by repeat split.
Qed.

Lemma upload_parts_inv parts w w' stored :
  upload_parts parts [] w = (w', inr stored) ->
  Forall allowed parts /\ stored = map store_file parts /\ w' = write_all parts w.
Proof.
  intros H. destruct (decide (Forall allowed parts)) as [Hall | Hnot].
  - rewrite (upload_parts_accept _ _ _ Hall) in H. by injection H as <- <-.
  - apply not_Forall_Exists in Hnot; [| intros p; apply _].
    apply first_refused in Hnot as (ok & bad & rest & -> & Hok & Hbad).
    rewrite (upload_parts_reject _ _ _ _ _ Hok Hbad) in H. discriminate.
Qed.

(** Membership of a concrete field name in the allow-list, by running
    the test of the filter. *)
Ltac by_filter :=
  unfold allowed, accepted;
  lazymatch goal with
  | |- ~ ?P => apply (bool_decide_eq_false_1 P); reflexivity
  | |- ?P => apply (bool_decide_eq_true_1 P); reflexivity
  end.

(** ** Stored paths (C7) *)

(** C7, as the specification states it, fails: two accepted files with
    the same original name whose [filename] callbacks read the same
    millisecond from [Date.now()] are stored under one path. *)
Lemma C7_same_millisecond_same_path :
  ~ (forall parts w w' stored,
       upload_parts parts [] w = (w', inr stored) ->
       stored_paths_distinct stored).
Proof.
  intros H.
  pose (p := sample_file "files" "report.pdf" 1700000000000).
  specialize (H [p; p] empty_world _ _ (upload_parts_accept [p; p] [] empty_world
    ltac:(repeat constructor; by_filter))).
  by apply (H 0%nat 1%nat (store_file p) (store_file p)).
Qed.

(** C7, amended: the files that a request stores correspond, in order,
    to its accepted parts, and two of them share a stored path exactly
    when they share both the [Date.now()] reading and the original name.
    So a differing timestamp or a differing name keeps the paths apart. *)
Theorem C7_stored_paths_collide_iff parts w w' stored i j f g :
  upload_parts parts [] w = (w', inr stored) ->
  stored !! i = Some f -> stored !! j = Some g ->
  exists p q,
    parts !! i = Some p /\ parts !! j = Some q /\
    path f = uploadDir ++ decimal_N (in_now p) ++ lit "-" ++ originalname f /\
    (path f = path g <->
       in_now p = in_now q /\ originalname f = originalname g).
Proof.
  intros (_ & -> & _)%upload_parts_inv Hf Hg.
  rewrite list_lookup_fmap in Hf, Hg.
  destruct (parts !! i) as [p|] eqn:Hp; [| discriminate].
  destruct (parts !! j) as [q|] eqn:Hq; [| discriminate].
  injection Hf as <-. injection Hg as <-.
  exists p, q. split; [done |]. split; [done |]. split; [done |].
  simpl. apply stored_path_inj.
Qed.

Lemma C7_stored_paths_collide_iff_witness :
  exists p q,
    [sample_file "files" "a.txt" 5; sample_file "files" "a.txt" 6] !! 0%nat = Some p /\
    [sample_file "files" "a.txt" 5; sample_file "files" "a.txt" 6] !! 1%nat = Some q /\
    path (store_file (sample_file "files" "a.txt" 5)) =
      uploadDir ++ decimal_N (in_now p) ++ lit "-"
        ++ originalname (store_file (sample_file "files" "a.txt" 5)) /\
    (path (store_file (sample_file "files" "a.txt" 5)) =
     path (store_file (sample_file "files" "a.txt" 6)) <->
       in_now p = in_now q /\
       originalname (store_file (sample_file "files" "a.txt" 5)) =
       originalname (store_file (sample_file "files" "a.txt" 6))).
Proof.
  apply (C7_stored_paths_collide_iff
           [sample_file "files" "a.txt" 5; sample_file "files" "a.txt" 6]
           empty_world
           (write_all [sample_file "files" "a.txt" 5; sample_file "files" "a.txt" 6]
                      empty_world)
           [store_file (sample_file "files" "a.txt" 5);
            store_file (sample_file "files" "a.txt" 6)]
           0%nat 1%nat);
    reflexivity.
Defined.

(** ** Observing traces *)

Lemma responses_emit e w :
  responses (emit e w) =
  responses w ++ match e with EvSend r => [r] | _ => [] end.
Proof. unfold responses, emit; simpl. rewrite omap_app. by destruct e. Qed.

Lemma outbound_calls_emit e w :
  outbound_calls (emit e w) =
  outbound_calls w ++ match e with EvPost c => [c] | _ => [] end.
Proof. unfold outbound_calls, emit; simpl. rewrite omap_app. by destruct e. Qed.

Lemma writes_emit e w :
  writes (emit e w) = writes w ++ match e with EvWrite p => [p] | _ => [] end.
Proof. unfold writes, emit; simpl. rewrite omap_app. by destruct e. Qed.

Lemma fs_emit e w : fs (emit e w) = fs w.
Proof. done. Qed.

Section Unlinking.
Context {A : Type} (pth : A -> jstring).

Local Abbreviation unlink_each l w :=
  (fold_left (fun w f => unlink_logged (pth f) w) l w).

Lemma unlink_each_responses l : forall w,
  responses (unlink_each l w) = responses w.
Proof.
  induction l as [|f l IH]; intros w; [done |].
  simpl. rewrite IH.
  unfold unlink_logged. rewrite responses_emit, app_nil_r. done.
Qed.

Lemma unlink_each_calls l : forall w,
  outbound_calls (unlink_each l w) = outbound_calls w.
Proof.
  induction l as [|f l IH]; intros w; [done |].
  simpl. rewrite IH.
  unfold unlink_logged. rewrite outbound_calls_emit, app_nil_r. done.
Qed.

Lemma unlink_each_writes l : forall w,
  writes (unlink_each l w) = writes w.
Proof.
  induction l as [|f l IH]; intros w; [done |].
  simpl. rewrite IH.
  unfold unlink_logged. rewrite writes_emit, app_nil_r. done.
Qed.

(** After the loop the store has lost exactly the paths of [l]. *)
Lemma unlink_each_fs l : forall w x,
  x ∈ fs (unlink_each l w) <-> x ∈ fs w /\ x ∉ map pth l.
Proof.
  induction l as [|f l IH]; intros w x.
  - simpl. split; [intros H; split; [done | apply not_elem_of_nil] | by intros [H _]].
  - simpl. rewrite IH.
    unfold unlink_logged; simpl. rewrite elem_of_difference, elem_of_singleton.
    rewrite not_elem_of_cons. tauto.
Qed.

Lemma unlink_count_emit p e w :
  unlink_count p (emit e w) =
  (unlink_count p w + if is_unlink_of p e then 1 else 0)%nat.
Proof.
  unfold unlink_count, emit; simpl. rewrite filter_app, length_app. f_equal.
  rewrite filter_cons. by destruct (is_unlink_of p e).
Qed.

(** The loop attempts one unlink per list element. *)
Lemma unlink_each_count p l : forall w,
  unlink_count p (unlink_each l w) =
  (unlink_count p w + length (filter (fun f => pth f = p) l))%nat.
Proof.
  induction l as [|f l IH]; intros w; [simpl; lia |].
  simpl. rewrite IH. unfold unlink_logged. rewrite unlink_count_emit; simpl.
  rewrite filter_cons. unfold unlink_count; simpl.
  destruct (decide (pth f = p)) as [Hp | Hp].
  - rewrite bool_decide_eq_true_2 by done. simpl. lia.
  - rewrite bool_decide_eq_false_2 by done. lia.
Qed.

Lemma filter_absent_path p l :
  p ∉ map pth l -> filter (fun f => pth f = p) l = [].
Proof.
  induction l as [|f l IH]; simpl; [done |].
  intros [Hf Hl]%not_elem_of_cons. rewrite filter_cons, decide_False by done.
  by apply IH.
Qed.

Lemma filter_unique_path p l :
  NoDup (map pth l) -> p ∈ map pth l ->
  length (filter (fun f => pth f = p) l) = 1%nat.
Proof.
  induction l as [|f l IH]; simpl; [by intros _ ?%elem_of_nil |].
  intros [Hf Hnd]%NoDup_cons Hin. rewrite filter_cons.
  destruct (decide (pth f = p)) as [<- | Hne].
  - by rewrite filter_absent_path.
  - apply elem_of_cons in Hin as [-> | Hin]; [done | by apply IH].
Qed.

End Unlinking.

Lemma cleanup_run fl w : cleanup fl w = (unlink_all fl w, inr tt).
Proof.
  destruct fl as [[|f l]|]; try done.
Qed.

Lemma unlink_all_responses fl w : responses (unlink_all fl w) = responses w.
Proof. destruct fl as [l|]; [apply unlink_each_responses | done]. Qed.

Lemma unlink_all_calls fl w : outbound_calls (unlink_all fl w) = outbound_calls w.
Proof. destruct fl as [l|]; [apply unlink_each_calls | done]. Qed.

Lemma unlink_all_fs l w x :
  x ∈ fs (unlink_all (Some l) w) <-> x ∈ fs w /\ x ∉ map path l.
Proof. apply unlink_each_fs. Qed.

(** ** The URL of the page *)

Lemma extract_pageUrl_found data key title u w :
  first_truthy data = Some u ->
  extract_pageUrl data key title w = (w, inr u).
Proof.
  unfold first_truthy, extract_pageUrl, or_else; simpl.
  repeat (match goal with
          | |- context [truthy ?v] => destruct (truthy v)
          end; [by intros [= ->] |]).
  discriminate.
Qed.

Lemma extract_pageUrl_fallback data key k t w :
  first_truthy data = None ->
  ToString key = Some k ->
  extract_pageUrl data key (JStr t) w = (w, inr (template_url k t)).
Proof.
  unfold first_truthy, extract_pageUrl, or_else; simpl.
  repeat (match goal with
          | |- context [truthy ?v] => destruct (truthy v)
          end; [discriminate |]).
  intros _ Hk. unfold fallback_url, to_string, bind. by rewrite Hk.
Qed.

Lemma extract_pageUrl_string_title data key k t w :
  ToString key = Some k ->
  extract_pageUrl data key (JStr t) w =
    (w, inr (default (template_url k t) (first_truthy data))).
Proof.
  intros Hk. destruct (first_truthy data) as [u|] eqn:H.
  - by apply extract_pageUrl_found.
  - by apply extract_pageUrl_fallback.
Qed.

(** ** The handler, path by path *)

Lemma is_object_js_or v : is_object v = true -> js_or v (JObj []) = v.
Proof. unfold is_object, js_or. by destruct (truthy v). Qed.

Lemma guard_passes v :
  is_object v = true ->
  negb (truthy v) || negb (bool_decide (typeof v = lit "object")) = false.
Proof.
  unfold is_object. intros [-> ->]%andb_true_iff. done.
Qed.

Lemma guard_fails v :
  is_object v = false ->
  negb (truthy v) || negb (bool_decide (typeof v = lit "object")) = true.
Proof.
  unfold is_object. intros [-> | ->]%andb_false_iff; [done |].
  by rewrite orb_true_r.
Qed.

Lemma try_block_validated env req w :
  validated req ->
  try_block env req w =
    (response <- post_upstream env (request_call env req) ;;
     pageUrl <- extract_pageUrl (up_data response)
                  (get (body req) "wikiSpaceKey")
                  (get (body req) "pageToBeCreatedTitle") ;;
     cleanup (files req) ;;;
     res_json 200 (success_response pageUrl))%js w.
Proof.
  intros (Hobj & Ht & Hk). unfold try_block, request_call.
  rewrite (guard_passes _ Hobj), (is_object_js_or _ Hobj), Ht, Hk. done.
Qed.

Lemma handler_resolved env req w r url :
  validated req ->
  axios_post env (request_call env req) = Resolved r ->
  (forall w', extract_pageUrl (up_data r) (get (body req) "wikiSpaceKey")
                (get (body req) "pageToBeCreatedTitle") w' = (w', inr url)) ->
  handler env req w =
    emit (EvSend {| status := 200; json_body := Some (success_response url) |})
      (unlink_all (files req) (emit (EvPost (request_call env req)) w)).
Proof.
  intros Hv Hr Hu. unfold handler. rewrite (try_block_validated _ _ _ Hv).
  unfold bind, post_upstream. rewrite Hr, Hu, cleanup_run. done.
Qed.

Lemma handler_rejected env req w e :
  validated req ->
  axios_post env (request_call env req) = Rejected e ->
  handler env req w =
    fst (catch_block req e (emit (EvPost (request_call env req)) w)).
Proof.
  intros Hv Hr. unfold handler. rewrite (try_block_validated _ _ _ Hv).
  unfold bind, post_upstream. rewrite Hr. done.
Qed.

Lemma catch_block_run req e w :
  exists r, catch_block req e w =
              (emit (EvSend r) (unlink_all (files req) w), inr tt) /\
            r = match err_response e with
                | Some u =>
                    {| status := up_status u;
                       json_body := Some (JObj [ prop "status" (str "error");
                                                 prop "error" (str "Mulesoft API error");
                                                 prop "details" (up_data u);
                                                 prop "message" (JStr (err_message e)) ]) |}
                | None =>
                    {| status := 500;
                       json_body := Some (JObj [ prop "status" (str "error");
                                                 prop "error" (if err_request e
                                                               then str "No response from Mulesoft API"
                                                               else str "Failed to generate Confluence page");
                                                 prop "message" (if err_request e
                                                                 then str "Network or timeout error"
                                                                 else JStr (err_message e)) ]) |}
                end.
Proof.
  unfold catch_block, bind. rewrite cleanup_run.
  destruct (err_response e) as [u|]; [| destruct (err_request e)];
    eexists; split; reflexivity.
Qed.

(** ** Required fields (C2) *)

Lemma handler_no_body env req w :
  is_object (body req) = false ->
  handler env req w =
    emit (EvSend {| status := 400;
                    json_body := Some (malformed_body_response req) |}) w.
Proof.
  intros H. unfold handler, try_block. by rewrite (guard_fails _ H).
Qed.

Lemma handler_required env req w :
  is_object (body req) = true ->
  truthy (get (body req) "pageToBeCreatedTitle") = false \/
  truthy (get (body req) "wikiSpaceKey") = false ->
  handler env req w =
    emit (EvSend {| status := 400;
                    json_body := Some (required_response
                      (if truthy (get (body req) "pageToBeCreatedTitle")
                       then "wikiSpaceKey" else "pageToBeCreatedTitle")) |}) w.
Proof.
  intros Hobj H. unfold handler, try_block.
  rewrite (guard_passes _ Hobj), (is_object_js_or _ Hobj).
  destruct (truthy (get (body req) "pageToBeCreatedTitle")); simpl; [| done].
  destruct H as [H | ->]; done.
Qed.

Lemma missing_or_empty_falsy v : missing_or_empty v -> truthy v = false.
Proof. by intros [-> | ->]. Qed.




(** ** Disallowed upload fields (C3) *)

Lemma write_all_responses parts : forall w,
  responses (write_all parts w) = responses w.
Proof.
  induction parts as [|p parts IH]; intros w; [done |].
  unfold write_all in *; simpl. rewrite IH.
  unfold write_file. rewrite responses_emit, app_nil_r. done.
Qed.

Lemma write_all_calls parts : forall w,
  outbound_calls (write_all parts w) = outbound_calls w.
Proof.
  induction parts as [|p parts IH]; intros w; [done |].
  unfold write_all in *; simpl. rewrite IH.
  unfold write_file. rewrite outbound_calls_emit, app_nil_r. done.
Qed.

Lemma write_all_writes parts : forall w,
  writes (write_all parts w) = writes w ++ map stored_path parts.
Proof.
  induction parts as [|p parts IH]; intros w; [by rewrite app_nil_r |].
  unfold write_all in *; simpl. rewrite IH.
  unfold write_file. rewrite writes_emit, <- app_assoc. done.
Qed.

Lemma write_all_fs parts : forall w x,
  x ∈ fs (write_all parts w) <-> x ∈ fs w \/ x ∈ map stored_path parts.
Proof.
  induction parts as [|p parts IH]; intros w x.
  - simpl. rewrite elem_of_nil. tauto.
  - unfold write_all in *; simpl. rewrite IH.
    unfold write_file; simpl. rewrite elem_of_union, elem_of_singleton, elem_of_cons.
    tauto.
Qed.

Lemma paths_of_stored parts : map path (map store_file parts) = map stored_path parts.
Proof. by rewrite map_map. Qed.

(** C3, as the specification states it, fails: the error of the file
    filter carries no status and the application installs no error
    middleware, so the client gets Express's 500, not a 400. *)
Lemma C3_disallowed_field_is_500 :
  ~ (forall env i parts w,
       inc_file_parts i = Some parts ->
       Exists (fun p => ~ allowed p) parts ->
       exists r, responses (post_generate_confluence env i w) = responses w ++ [r] /\
                 status r = 400%Z).
Proof.
  intros H.
  destruct (H (upstream_ok JNull) scenario_D _ empty_world eq_refl) as (r & Hr & Hs).
  - apply Exists_cons_tl, Exists_cons_hd. by_filter.
  - vm_compute in Hr. injection Hr as <-. discriminate.
Qed.

(** C3, amended: multer drops the file parts that have an empty file
    name before the filter sees them. If one of the remaining parts has
    a field name outside [tddIrdFiles], [postmanFiles], [commFiles],
    [files], the intake fails at the first such part, all parts before
    it having been accepted, with the error [Unexpected field: <name>]
    that names its field; the handler never runs, so no outbound call is
    made; Express answers once, with status 500; and every file the
    request had stored is removed again, the store gaining nothing. *)
Theorem C3_disallowed_field_rejected env i parts w :
  inc_file_parts i = Some parts ->
  Exists (fun p => in_fieldname p ∉ [lit "tddIrdFiles"; lit "postmanFiles";
                                     lit "commFiles"; lit "files"])
         (filter (fun p => in_originalname p <> []) parts) ->
  exists ok bad rest w1,
    filter (fun p => in_originalname p <> []) parts = ok ++ bad :: rest /\
    Forall (fun p => in_fieldname p ∈ [lit "tddIrdFiles"; lit "postmanFiles";
                                       lit "commFiles"; lit "files"]) ok /\
    (in_fieldname bad ∉ [lit "tddIrdFiles"; lit "postmanFiles";
                         lit "commFiles"; lit "files"]) /\
    upload_any i w =
      (w1, inl {| err_message := lit "Unexpected field: " ++ in_fieldname bad;
                  err_status := None; err_response := None;
                  err_request := false |}) /\
    responses (post_generate_confluence env i w) =
      responses w ++ [{| status := 500; json_body := None |}] /\
    outbound_calls (post_generate_confluence env i w) = outbound_calls w /\
    (forall x, x ∈ fs (post_generate_confluence env i w) -> x ∈ fs w) /\
    (forall x, x ∈ writes (post_generate_confluence env i w) ->
               x ∈ writes w \/ x ∉ fs (post_generate_confluence env i w)).
Proof.
  intros Hparts Hex.
  change (Exists (fun p => ~ allowed p) (named_parts parts)) in Hex.
  apply first_refused in Hex as (ok & bad & rest & Hsplit & Hok & Hbad).
  exists ok, bad, rest,
    (removeUploadedFiles ([] ++ map store_file ok) (write_all ok w)).
  assert (Hup : upload_any i w =
    (removeUploadedFiles ([] ++ map store_file ok) (write_all ok w),
     inl (new_Error (lit "Unexpected field: " ++ in_fieldname bad)))).
  { unfold upload_any. rewrite Hparts. unfold bind. rewrite Hsplit.
    by rewrite (upload_parts_reject _ _ _ _ _ Hok Hbad). }
  split; [exact Hsplit |]. split; [exact Hok |]. split; [exact Hbad |].
  split; [exact Hup |].
  unfold post_generate_confluence. rewrite Hup.
  unfold default_error_handler, removeUploadedFiles; simpl.
  rewrite responses_emit, outbound_calls_emit, writes_emit, !app_nil_r.
  rewrite unlink_each_responses, unlink_each_calls, unlink_each_writes.
  rewrite write_all_responses, write_all_calls, write_all_writes.
  repeat split; try done.
  - intros x. rewrite unlink_each_fs, write_all_fs, paths_of_stored. tauto.
  - intros x [Hx | Hx]%elem_of_app; [by left | right].
    rewrite unlink_each_fs, paths_of_stored. tauto.
Qed.

Lemma C3_disallowed_field_rejected_witness :
  responses (post_generate_confluence (upstream_ok JNull) scenario_D empty_world) =
    [{| status := 500; json_body := None |}] /\
  outbound_calls (post_generate_confluence (upstream_ok JNull) scenario_D empty_world) = [] /\
  forall x, x ∉ fs (post_generate_confluence (upstream_ok JNull) scenario_D empty_world).
Proof.
  destruct (C3_disallowed_field_rejected (upstream_ok JNull) scenario_D
              [sample_file "files" "notes.txt" 1700000000000;
               sample_file "randomField" "x.bin" 1700000000001]
              empty_world eq_refl)
    as (ok & bad & rest & w1 & _ & _ & _ & _ & Hr & Hc & Hfs & _).
  - apply Exists_cons_tl, Exists_cons_hd. by_filter.
  - split; [exact Hr |]. split; [exact Hc |].
    intros x Hx. apply Hfs in Hx. revert Hx. apply not_elem_of_empty.
Defined.

(** ** Cleanup (C1) *)

Lemma extract_pageUrl_pure data key title :
  exists res, forall w, extract_pageUrl data key title w = (w, res).
Proof.
  unfold extract_pageUrl, or_else.
  repeat (match goal with
          | |- context [truthy ?v] => destruct (truthy v)
          end; [by eexists |]).
  unfold fallback_url, to_string, bind.
  destruct (ToString key); [| by eexists]. destruct title; by eexists.
Qed.

(** Once the upstream call has been issued, whatever comes of it, the
    handler unlinks every file of the request and only then responds. *)
Lemma handler_after_call env req w :
  validated req ->
  exists r,
    handler env req w =
      emit (EvSend r)
        (unlink_all (files req) (emit (EvPost (request_call env req)) w)).
Proof.
  intros Hv. destruct (axios_post env (request_call env req)) as [u | e] eqn:Hax.
  - destruct (extract_pageUrl_pure (up_data u) (get (body req) "wikiSpaceKey")
                (get (body req) "pageToBeCreatedTitle")) as ([e | url] & Hres).
    + unfold handler. rewrite (try_block_validated _ _ _ Hv).
      unfold bind, post_upstream. rewrite Hax, Hres.
      destruct (catch_block_run req e (emit (EvPost (request_call env req)) w))
        as (r & -> & _). by exists r.
    + rewrite (handler_resolved _ _ _ _ _ Hv Hax Hres). by eexists.
  - rewrite (handler_rejected _ _ _ _ Hv Hax).
    destruct (catch_block_run req e (emit (EvPost (request_call env req)) w))
      as (r & -> & _). by exists r.
Qed.

Lemma cleanup_after_call env req l w x :
  validated req -> files req = Some l -> x ∈ map path l ->
  x ∉ fs (handler env req w).
Proof.
  intros Hv Hl Hx. destruct (handler_after_call env req w Hv) as (r & ->).
  rewrite Hl. simpl. rewrite unlink_each_fs. tauto.
Qed.

(** ... and it unlinks each of them once, when their paths differ. *)
Lemma cleanup_once_after_call env req l w x :
  validated req -> files req = Some l ->
  NoDup (map path l) -> x ∈ map path l ->
  unlink_count x (handler env req w) = S (unlink_count x w).
Proof.
  intros Hv Hl Hnd Hx. destruct (handler_after_call env req w Hv) as (r & ->).
  rewrite Hl, unlink_count_emit. simpl.
  rewrite unlink_each_count, unlink_count_emit, (filter_unique_path _ _ _ Hnd Hx).
  simpl. lia.
Qed.

(** The exits of the validation leave the store as multer filled it. *)
Lemma validation_exit_keeps_store env req w :
  ~ validated req -> fs (handler env req w) = fs w.
Proof.
  intros Hnv. destruct (is_object (body req)) eqn:Hobj.
  - rewrite handler_required; [done | done |].
    destruct (truthy (get (body req) "pageToBeCreatedTitle")) eqn:Ht; [| by left].
    destruct (truthy (get (body req) "wikiSpaceKey")) eqn:Hk; [| by right].
    destruct Hnv. by repeat split.
  - by rewrite handler_no_body.
Qed.

(** C1 fails on the code at Scenario B of the specification: the request
    stores one file, the handler answers 400 for the missing space key
    from inside the [try] block, and returns before either cleanup
    block: the file is never unlinked and is still in the store after
    the response. *)
Theorem C1_validation_exit_leaves_file :
  let w := post_generate_confluence (upstream_ok JNull) scenario_B empty_world in
  writes w = [lit "uploads/1700000000000-design.pdf"] /\
  responses w = [{| status := 400;
                    json_body := Some (required_response "wikiSpaceKey") |}] /\
  unlink_count (lit "uploads/1700000000000-design.pdf") w = 0%nat /\
  lit "uploads/1700000000000-design.pdf" ∈ fs w.
Proof.
  intros w. split; [by vm_compute |]. split; [by vm_compute |].
  split; [by vm_compute |].
  apply (bool_decide_eq_true_1 _). by vm_compute.
Qed.

(** ** The success response (C5, C9) *)

Lemma handler_resolved_responses env req w r url :
  validated req ->
  axios_post env (request_call env req) = Resolved r ->
  (forall w', extract_pageUrl (up_data r) (get (body req) "wikiSpaceKey")
                (get (body req) "pageToBeCreatedTitle") w' = (w', inr url)) ->
  responses (handler env req w) =
    responses w ++ [{| status := 200; json_body := Some (success_response url) |}].
Proof.
  intros Hv Hr Hu. rewrite (handler_resolved _ _ _ _ _ Hv Hr Hu).
  rewrite responses_emit, unlink_all_responses, responses_emit, app_nil_r. done.
Qed.

Lemma request_A_validated : validated request_A.
Proof. by repeat split. Qed.

(** What [replace(/\s+/g, '+')] does: a stretch without whitespace is
    kept, a maximal whitespace run becomes one [+], and no whitespace is
    left. *)
Lemma replace_word a b :
  Forall (fun c => is_space c = false) a ->
  replace_whitespace (a ++ b) = a ++ replace_whitespace b.
Proof.
  unfold replace_whitespace. induction 1 as [|c a Hc Ha IH]; simpl; [done |].
  by rewrite Hc, IH.
Qed.

Lemma replace_run_then_word ws c b :
  ws <> [] -> Forall (fun c => is_space c = true) ws -> is_space c = false ->
  replace_whitespace (ws ++ c :: b) = plus_sign :: replace_whitespace (c :: b).
Proof.
  unfold replace_whitespace. intros Hne Hws Hc.
  destruct Hws as [|s ws Hs Hws]; [done |]. simpl. rewrite Hs. f_equal.
  clear Hne Hs. induction Hws as [|s' ws Hs' Hws IH]; simpl.
  - by rewrite Hc.
  - by rewrite Hs'.
Qed.

Lemma replace_trailing_run ws :
  ws <> [] -> Forall (fun c => is_space c = true) ws ->
  replace_whitespace ws = [plus_sign].
Proof.
  unfold replace_whitespace. intros Hne Hws.
  destruct Hws as [|s ws Hs Hws]; [done |]. simpl. rewrite Hs. f_equal.
  clear Hne Hs. induction Hws as [|s' ws Hs' Hws IH]; simpl; [done |].
  by rewrite Hs'.
Qed.

Lemma replace_leaves_no_space s in_run :
  Forall (fun c => is_space c = false) (replace_runs in_run s).
Proof.
  revert in_run. induction s as [|c s IH]; intros in_run; simpl; [constructor |].
  destruct (is_space c) eqn:Hc; [destruct in_run |]; try apply IH;
    constructor; try apply IH; done.
Qed.

(** The code's replacement is the one the relation describes. *)
Lemma replace_runs_replaced s :
  runs_replaced s (replace_runs false s) /\
  (forall ws, ws <> [] -> Forall (fun c => is_space c = true) ws ->
              runs_replaced (ws ++ s) (43 :: replace_runs true s)).
Proof.
  induction s as [|c s [IHa IHb]]; simpl.
  - split; [constructor |]. intros ws Hne Hws. by apply rr_run; [| | | constructor].
  - destruct (is_space c) eqn:Hc.
    + split.
      * apply (IHb [c]); [done | by constructor].
      * intros ws Hne Hws. rewrite (cons_middle c ws s), app_assoc.
        apply IHb; [by destruct ws | apply Forall_app; split; [done | by constructor]].
    + split; [by constructor |].
      intros ws Hne Hws. apply rr_run; try done. by constructor.
Qed.

Lemma runs_replaced_iff s r : runs_replaced s r <-> r = replace_whitespace s.
Proof.
  split.
  - induction 1 as [| c s r Hc _ IH | ws s r Hne Hws Hs _ IH].
    + done.
    + unfold replace_whitespace in *. simpl. by rewrite Hc, IH.
    + destruct s as [|c s].
      * rewrite app_nil_r, (replace_trailing_run ws Hne Hws). by rewrite IH.
      * rewrite (replace_run_then_word ws c s Hne Hws Hs). by rewrite IH.
  - intros ->. apply replace_runs_replaced.
Qed.

(** C5, as the specification states it, fails: a URL field that the
    upstream body has, but with an empty value, is passed over, and the
    next truthy field (or the template) is used. *)
Lemma C5_empty_url_field_is_skipped :
  ~ (forall env req w r k t,
       validated req ->
       get (body req) "wikiSpaceKey" = JStr k ->
       get (body req) "pageToBeCreatedTitle" = JStr t ->
       axios_post env (request_call env req) = Resolved r ->
       exists b,
         responses (handler env req w) =
           responses w ++ [{| status := 200; json_body := Some b |}] /\
         get b "pageUrl" = default (template_url k t) (first_present (up_data r))).
Proof.
  intros H.
  destruct (H (upstream_ok (JObj [prop "pageURL" (str "");
                                  prop "pageUrl" (str "https://wiki/x")]))
              request_A empty_world _ _ _ request_A_validated
              eq_refl eq_refl eq_refl) as (b & Hr & Hb).
  vm_compute in Hr. injection Hr as <-. vm_compute in Hb. discriminate.
Qed.

(** C5, amended: on an upstream success the [pageUrl] of the client
    response is the first of the upstream fields [pageURL], [pageUrl],
    [confluencePageUrl], [url] whose value is truthy (present and not
    empty, null, zero or false). If none is truthy, the title is a
    string and the space key converts to a string, [pageUrl] is
    [https://wiki.intel.com/display/<key>/<title>] with every maximal
    whitespace run of the title replaced by one [+]. *)
Theorem C5_pageUrl_first_truthy_or_template env req w r :
  validated req ->
  axios_post env (request_call env req) = Resolved r ->
  (forall u,
     find truthy (map (get (up_data r))
                      ["pageURL"; "pageUrl"; "confluencePageUrl"; "url"]%string)
       = Some u ->
     exists b,
       responses (handler env req w) =
         responses w ++ [{| status := 200; json_body := Some b |}] /\
       get b "pageUrl" = u) /\
  (forall t k,
     find truthy (map (get (up_data r))
                      ["pageURL"; "pageUrl"; "confluencePageUrl"; "url"]%string)
       = None ->
     get (body req) "pageToBeCreatedTitle" = JStr t ->
     ToString (get (body req) "wikiSpaceKey") = Some k ->
     exists b t',
       responses (handler env req w) =
         responses w ++ [{| status := 200; json_body := Some b |}] /\
       runs_replaced t t' /\
       get b "pageUrl" =
         JStr (lit "https://wiki.intel.com/display/" ++ k ++ lit "/" ++ t')).
Proof.
  intros Hv Hr. split.
  - intros u Hu. exists (success_response u). split; [| reflexivity].
    apply (handler_resolved_responses _ _ _ _ _ Hv Hr).
    intros w'. by apply extract_pageUrl_found.
  - intros t k Hnone Ht Hk.
    exists (success_response (template_url k t)), (replace_whitespace t).
    split; [| split; [by apply runs_replaced_iff | reflexivity]].
    apply (handler_resolved_responses _ _ _ _ _ Hv Hr).
    intros w'. rewrite Ht. by apply extract_pageUrl_fallback.
Qed.

Lemma C5_pageUrl_first_truthy_or_template_witness :
  exists b,
    responses (handler (upstream_ok (JObj [prop "pageURL" (str "");
                                           prop "status" (str "created")]))
                       request_A empty_world) =
      [{| status := 200; json_body := Some b |}] /\
    get b "pageUrl" = str "https://wiki.intel.com/display/ENG/Service+X".
Proof.
  destruct (C5_pageUrl_first_truthy_or_template
              (upstream_ok (JObj [prop "pageURL" (str "");
                                  prop "status" (str "created")]))
              request_A empty_world
              {| up_status := 200;
                 up_data := JObj [prop "pageURL" (str ""); prop "status" (str "created")] |}
              request_A_validated eq_refl) as [_ Hfallback].
  destruct (Hfallback (lit "Service X") (lit "ENG") eq_refl eq_refl eq_refl)
    as (b & t' & Hresp & Hruns & Hurl).
  exists b. split; [exact Hresp |].
  apply runs_replaced_iff in Hruns. rewrite Hurl, Hruns. reflexivity.
Defined.

(** C9, as the specification states it, fails at Scenario A: the message
    of the success response is not the string [success]. *)
Lemma C9_message_is_not_success :
  ~ (forall env req w r,
       validated req ->
       axios_post env (request_call env req) = Resolved r ->
       exists url,
         responses (handler env req w) =
           responses w ++ [{| status := 200;
                              json_body := Some (JObj [ prop "message" (str "success");
                                                        prop "pageUrl" url ]) |}]).
Proof.
  intros H.
  destruct (H (upstream_ok (JObj [prop "pageURL" (str "https://wiki/x")]))
              request_A empty_world _ request_A_validated eq_refl) as (url & Hr).
  vm_compute in Hr. discriminate.
Qed.

(** C9, amended: on an upstream success, when the upstream body has a
    truthy URL field, or the title is a string and the space key
    converts to a string, the client gets exactly one response, with
    status 200 and the body
    [{message: "Confluence page generated successfully", pageUrl}],
    where [pageUrl] is that first truthy field or else the fallback
    URL. *)
Theorem C9_success_response env req w r :
  validated req ->
  axios_post env (request_call env req) = Resolved r ->
  is_Some (find truthy (map (get (up_data r))
                            ["pageURL"; "pageUrl"; "confluencePageUrl"; "url"]%string)) \/
  (exists t k, get (body req) "pageToBeCreatedTitle" = JStr t /\
               ToString (get (body req) "wikiSpaceKey") = Some k) ->
  exists url,
    responses (handler env req w) =
      responses w ++
      [{| status := 200;
          json_body :=
            Some (JObj [ (lit "message", JStr (lit "Confluence page generated successfully"));
                         (lit "pageUrl", url) ]) |}] /\
    (find truthy (map (get (up_data r))
                      ["pageURL"; "pageUrl"; "confluencePageUrl"; "url"]%string)
       = Some url \/
     (find truthy (map (get (up_data r))
                       ["pageURL"; "pageUrl"; "confluencePageUrl"; "url"]%string)
        = None /\
      exists t k t',
        get (body req) "pageToBeCreatedTitle" = JStr t /\
        ToString (get (body req) "wikiSpaceKey") = Some k /\
        runs_replaced t t' /\
        url = JStr (lit "https://wiki.intel.com/display/" ++ k ++ lit "/" ++ t'))).
Proof.
  change (find truthy (map (get (up_data r))
                           ["pageURL"; "pageUrl"; "confluencePageUrl"; "url"]%string))
    with (first_truthy (up_data r)).
  intros Hv Hr Hcase.
  destruct (first_truthy (up_data r)) as [u|] eqn:Hu.
  - exists u. split; [| by left].
    apply (handler_resolved_responses _ _ _ _ _ Hv Hr).
    intros w'. by apply extract_pageUrl_found.
  - destruct Hcase as [[u Hsome] | (t & k & Ht & Hk)]; [discriminate |].
    exists (template_url k t). split.
    + apply (handler_resolved_responses _ _ _ _ _ Hv Hr).
      intros w'. rewrite Ht. by apply extract_pageUrl_fallback.
    + right. split; [done |]. exists t, k, (replace_whitespace t).
      repeat split; try done. by apply runs_replaced_iff.
Qed.

Lemma C9_success_response_witness :
  exists url,
    responses (handler (upstream_ok (JObj [prop "pageURL" (str "https://wiki/x")]))
                       request_A empty_world) =
      [{| status := 200;
          json_body :=
            Some (JObj [ (lit "message", JStr (lit "Confluence page generated successfully"));
                         (lit "pageUrl", url) ]) |}] /\
    url = str "https://wiki/x".
Proof.
  destruct (C9_success_response
              (upstream_ok (JObj [prop "pageURL" (str "https://wiki/x")]))
              request_A empty_world
              {| up_status := 200;
                 up_data := JObj [prop "pageURL" (str "https://wiki/x")] |}
              request_A_validated eq_refl) as (url & Hresp & Hurl).
  - left. by eexists.
  - exists url. split; [exact Hresp |].
    destruct Hurl as [[= <-] | [[=] _]]. reflexivity.
Defined.

(** ** Upstream failures (C6) *)

(** C6: when the forwarded call fails, the client gets exactly one
    response. If the upstream answered with an error status, it is that
    status with [{status, error, details, message}], [details] being the
    upstream body; if no response arrived, it is 500 with the error
    [No response from Mulesoft API]; any other failure is 500 with a
    [status: "error"] body that carries the message of the failure. *)
Theorem C6_upstream_failure_mapping env req w e :
  validated req ->
  axios_post env (request_call env req) = Rejected e ->
  exists r,
    responses (handler env req w) = responses w ++ [r] /\
    (forall u, err_response e = Some u ->
       r = {| status := up_status u;
              json_body := Some (JObj [ prop "status" (str "error");
                                        prop "error" (str "Mulesoft API error");
                                        prop "details" (up_data u);
                                        prop "message" (JStr (err_message e)) ]) |}) /\
    (err_response e = None -> err_request e = true ->
       r = {| status := 500;
              json_body := Some (JObj [ prop "status" (str "error");
                                        prop "error" (str "No response from Mulesoft API");
                                        prop "message" (str "Network or timeout error") ]) |}) /\
    (err_response e = None -> err_request e = false ->
       r = {| status := 500;
              json_body := Some (JObj [ prop "status" (str "error");
                                        prop "error" (str "Failed to generate Confluence page");
                                        prop "message" (JStr (err_message e)) ]) |}).
Proof.
  intros Hv Hr. rewrite (handler_rejected _ _ _ _ Hv Hr).
  destruct (catch_block_run req e (emit (EvPost (request_call env req)) w))
    as (r & -> & Hresp).
  exists r. simpl.
  rewrite responses_emit, unlink_all_responses, responses_emit, app_nil_r.
  split; [done |]. rewrite Hresp.
  split; [| split].
  - by intros u ->.
  - by intros -> ->.
  - by intros -> ->.
Qed.

Lemma C6_upstream_failure_mapping_witness :
  responses (handler (upstream_fails
                        {| err_message := lit "Request failed with status code 502";
                           err_status := None;
                           err_response := Some {| up_status := 502;
                                                   up_data := str "Bad Gateway" |};
                           err_request := true |})
                     request_A empty_world) =
    [{| status := 502;
        json_body := Some (JObj [ prop "status" (str "error");
                                  prop "error" (str "Mulesoft API error");
                                  prop "details" (str "Bad Gateway");
                                  prop "message" (str "Request failed with status code 502") ]) |}].
Proof.
  destruct (C6_upstream_failure_mapping
              (upstream_fails
                 {| err_message := lit "Request failed with status code 502";
                    err_status := None;
                    err_response := Some {| up_status := 502;
                                            up_data := str "Bad Gateway" |};
                    err_request := true |})
              request_A empty_world _ request_A_validated eq_refl)
    as (r & Hr & Hup & _).
  rewrite Hr, (Hup _ eq_refl). reflexivity.
Defined.

(** ** The outbound form (C4) *)

Lemma fold_append {A} (g : A -> Part) (l : list A) : forall form,
  fold_left (fun form f => append (g f) form) l form = form ++ map g l.
Proof.
  induction l as [|f l IH]; intros form; simpl; [by rewrite app_nil_r |].
  rewrite IH. unfold append. by rewrite <- app_assoc.
Qed.

Lemma by_field_fieldname name l f : f ∈ by_field name l -> fieldname f = lit name.
Proof. unfold by_field. by intros [H _]%list_elem_of_filter. Qed.

Lemma file_parts_own name l :
  map (file_part name) (by_field name l) = map part_of (by_field name l).
Proof.
  apply map_ext_in. intros f Hf%list_elem_of_In%by_field_fieldname.
  unfold file_part, part_of. by rewrite Hf.
Qed.

Lemma append_category_spec name l form :
  append_category name l form = form ++ map part_of (by_field name l).
Proof.
  unfold append_category. rewrite <- file_parts_own. case_bool_decide as Hlen.
  - apply fold_append.
  - destruct (by_field name l); [by rewrite app_nil_r | simpl in Hlen; lia].
Qed.

Lemma build_form_spec pd l :
  build_form pd (Some l) =
    data_part pd ::
      map part_of (by_field "tddIrdFiles" l) ++ map part_of (by_field "postmanFiles" l)
      ++ map part_of (by_field "commFiles" l) ++ map part_of (by_field "files" l).
Proof.
  unfold build_form. destruct l as [|f l]; [done |].
  assert (Hne : truthy (files_present (Some (f :: l))) = true).
  { apply bool_decide_eq_true_2. simpl. lia. }
  rewrite Hne, !append_category_spec. unfold append. simpl. by rewrite <- !app_assoc.
Qed.

Lemma by_field_cons name f l :
  by_field name (f :: l) =
    if decide (fieldname f = lit name) then f :: by_field name l else by_field name l.
Proof. unfold by_field. by rewrite filter_cons. Qed.

(** Each accepted file is in exactly one of the four categories. *)
Lemma categories_partition l :
  Forall accepted l ->
  l ≡ₚ by_field "tddIrdFiles" l ++ by_field "postmanFiles" l
       ++ by_field "commFiles" l ++ by_field "files" l.
Proof.
  induction 1 as [|f l Hf Hl IH]; [done |].
  rewrite !by_field_cons. unfold accepted, allowedFields in Hf.
  rewrite !elem_of_cons, elem_of_nil in Hf.
  destruct Hf as [Hf | [Hf | [Hf | [Hf | []]]]]; rewrite Hf;
    repeat (first [ rewrite decide_True by reflexivity
                  | rewrite decide_False by discriminate ]).
  - by constructor.
  - by apply Permutation_cons_app.
  - rewrite (app_assoc (by_field "tddIrdFiles" l)).
    apply Permutation_cons_app. by rewrite <- app_assoc.
  - rewrite (app_assoc (by_field "postmanFiles" l)),
            (app_assoc (by_field "tddIrdFiles" l)).
    apply Permutation_cons_app. by rewrite <- !app_assoc.
Qed.

Lemma by_field_names name l :
  map part_name (map part_of (by_field name l)) =
    replicate (length (by_field name l)) (lit name).
Proof.
  induction l as [|f l IH]; [done |].
  rewrite by_field_cons. case_decide as Hf; [| done].
  simpl. by rewrite IH, Hf.
Qed.

Lemma parts_named_part_of k l :
  parts_named k (map part_of l) = map part_of (filter (fun f => fieldname f = k) l).
Proof.
  unfold parts_named. induction l as [|f l IH]; [done |].
  simpl. rewrite !filter_cons; simpl. rewrite IH. by case_decide.
Qed.

Lemma by_field_twice k n l :
  filter (fun f => fieldname f = lit k) (by_field n l) =
    if decide (lit k = lit n) then by_field n l else [].
Proof.
  induction l as [|f l IH]; [by case_decide |].
  rewrite by_field_cons.
  destruct (decide (fieldname f = lit n)) as [Hn | Hn]; [| done].
  rewrite filter_cons, IH, Hn.
  destruct (decide (lit k = lit n)) as [Hk | Hk].
  - by rewrite decide_True.
  - by rewrite decide_False.
Qed.

Lemma parts_named_app k a b : parts_named k (a ++ b) = parts_named k a ++ parts_named k b.
Proof. apply filter_app. Qed.

Lemma pageData_props b fl :
  pageData b fl =
    JObj [ (lit "apiType", get b "apiType");
           (lit "fetchPropertyFile", get b "fetchPropertyFile");
           (lit "selectedGitOrg", get b "selectedGitOrg");
           (lit "wikiSpaceKey", get b "wikiSpaceKey");
           (lit "pageToBeCreatedTitle", get b "pageToBeCreatedTitle");
           (lit "pageToBeCreatedParentPageTitle", get b "pageToBeCreatedParentPageTitle");
           (lit "appName", get b "appName");
           (lit "l0ProductionSupport", get b "l0ProductionSupport");
           (lit "l0ProductionSupportEmail", get b "l0ProductionSupportEmail");
           (lit "l2MulesoftSupport", get b "l2MulesoftSupport");
           (lit "l2MulesoftSupportEmail", get b "l2MulesoftSupportEmail");
           (lit "integrationDevTeam", get b "integrationDevTeam");
           (lit "integrationDevTeamEmail", get b "integrationDevTeamEmail");
           (lit "businessTeam", get b "businessTeam");
           (lit "businessTeamEmail", get b "businessTeamEmail");
           (lit "hasFiles",
             match fl with
             | None => JUndefined
             | Some l => JBool (bool_decide (0 < length l)%nat)
             end) ].
Proof. by destruct fl. Qed.

Lemma handler_calls env req w :
  validated req ->
  outbound_calls (handler env req w) = outbound_calls w ++ [request_call env req].
Proof.
  intros Hv. destruct (handler_after_call env req w Hv) as (r & ->).
  rewrite outbound_calls_emit, unlink_all_calls, outbound_calls_emit, app_nil_r. done.
Qed.

Lemma pageData_hasFiles b fl : get (pageData b fl) "hasFiles" = files_present fl.
Proof. reflexivity. Qed.

Lemma build_form_head pd fl : exists rest, build_form pd fl = data_part pd :: rest.
Proof.
  destruct fl as [l|]; [| by exists []].
  rewrite build_form_spec. by eexists.
Qed.

Lemma not_validated_cases req :
  ~ validated req ->
  is_object (body req) = false \/
  (is_object (body req) = true /\
   (truthy (get (body req) "pageToBeCreatedTitle") = false \/
    truthy (get (body req) "wikiSpaceKey") = false)).
Proof.
  intros Hnv. destruct (is_object (body req)) eqn:Hobj; [right | by left].
  split; [done |].
  destruct (truthy (get (body req) "pageToBeCreatedTitle")) eqn:Ht; [| by left].
  destruct (truthy (get (body req) "wikiSpaceKey")) eqn:Hk; [| by right].
  destruct Hnv. by repeat split.
Qed.

Lemma handler_not_validated env req w :
  ~ validated req ->
  exists b, handler env req w =
              emit (EvSend {| status := 400; json_body := Some b |}) w.
Proof.
  intros [Hobj | [Hobj Hf]]%not_validated_cases.
  - rewrite (handler_no_body _ _ _ Hobj). by eexists.
  - rewrite (handler_required _ _ _ Hobj Hf). by eexists.
Qed.

Lemma handler_outbound env req w :
  outbound_calls (handler env req w) =
    outbound_calls w ++ (if decide (validated req) then [request_call env req] else []).
Proof.
  destruct (decide (validated req)) as [Hv | Hnv].
  - by apply handler_calls.
  - destruct (handler_not_validated env req w Hnv) as (b & ->).
    by rewrite outbound_calls_emit.
Qed.

Lemma request_mixed_validated : validated request_mixed.
Proof. by repeat split. Qed.

(** C4: a request that passes validation with accepted files causes one
    outbound call. Its form is the part [data], the JSON text of the
    metadata object (the fifteen text fields of the body in their fixed
    order, then [hasFiles]), followed by the file parts: those of
    [tddIrdFiles], then [postmanFiles], then [commFiles], then [files],
    each group in arrival order, each part under the field name of its
    file and with its stored path, original name and MIME type. Every
    accepted file has exactly one part. The form is the same whatever
    the environment and the store: it depends on the request alone. *)
Theorem C4_outbound_form env req l w :
  validated req ->
  files req = Some l ->
  Forall (fun f => fieldname f ∈ [lit "tddIrdFiles"; lit "postmanFiles";
                                  lit "commFiles"; lit "files"]) l ->
  exists c props fparts,
    outbound_calls (handler env req w) = outbound_calls w ++ [c] /\
    call_form c =
      {| part_name := lit "data"; part_body := Json (JObj props);
         part_filename := None; part_contentType := None |} :: fparts /\
    map fst props =
      map lit ["apiType"; "fetchPropertyFile"; "selectedGitOrg"; "wikiSpaceKey";
               "pageToBeCreatedTitle"; "pageToBeCreatedParentPageTitle"; "appName";
               "l0ProductionSupport"; "l0ProductionSupportEmail"; "l2MulesoftSupport";
               "l2MulesoftSupportEmail"; "integrationDevTeam";
               "integrationDevTeamEmail"; "businessTeam"; "businessTeamEmail";
               "hasFiles"]%string /\
    (forall k,
       k ∈ ["apiType"; "fetchPropertyFile"; "selectedGitOrg"; "wikiSpaceKey";
            "pageToBeCreatedTitle"; "pageToBeCreatedParentPageTitle"; "appName";
            "l0ProductionSupport"; "l0ProductionSupportEmail"; "l2MulesoftSupport";
            "l2MulesoftSupportEmail"; "integrationDevTeam";
            "integrationDevTeamEmail"; "businessTeam"; "businessTeamEmail"]%string ->
       assoc (lit k) props = get (body req) k) /\
    assoc (lit "hasFiles") props = JBool (bool_decide (0 < length l)%nat) /\
    fparts =
      map (fun f => {| part_name := fieldname f; part_body := ReadStream (path f);
                       part_filename := Some (originalname f);
                       part_contentType := Some (mimetype f) |})
          (filter (fun f => fieldname f = lit "tddIrdFiles") l
           ++ filter (fun f => fieldname f = lit "postmanFiles") l
           ++ filter (fun f => fieldname f = lit "commFiles") l
           ++ filter (fun f => fieldname f = lit "files") l) /\
    fparts ≡ₚ
      map (fun f => {| part_name := fieldname f; part_body := ReadStream (path f);
                       part_filename := Some (originalname f);
                       part_contentType := Some (mimetype f) |}) l /\
    (forall env' w' c',
       outbound_calls (handler env' req w') = outbound_calls w' ++ [c'] ->
       call_form c' = call_form c).
Proof.
  intros Hv Hl Hacc.
  eexists (request_call env req), _, _.
  split; [by apply handler_calls |].
  split.
  { unfold request_call, make_call; simpl.
    rewrite Hl, build_form_spec, pageData_props. reflexivity. }
  split; [reflexivity |].
  split.
  { intros k Hk. apply list_elem_of_In in Hk. simpl in Hk.
    repeat (destruct Hk as [<- | Hk]; [reflexivity |]). destruct Hk. }
  split; [reflexivity |].
  split; [by rewrite !map_app |].
  split.
  { rewrite <- !map_app. apply Permutation_map. symmetry.
    by apply categories_partition. }
  intros env' w' c' Hc'. rewrite (handler_calls env' req w' Hv) in Hc'.
  apply app_inv_head in Hc'. by injection Hc' as <-.
Qed.

Lemma C4_outbound_form_witness :
  exists c,
    outbound_calls (handler (upstream_ok JNull) request_mixed empty_world) = [c] /\
    map (fun p => (part_name p, part_filename p)) (call_form c) =
      [ (lit "data", None);
        (lit "tddIrdFiles", Some (lit "design.pdf"));
        (lit "postmanFiles", Some (lit "api.json"));
        (lit "files", Some (lit "notes.txt"));
        (lit "files", Some (lit "more.txt")) ].
Proof.
  destruct (C4_outbound_form (upstream_ok JNull) request_mixed mixed_files empty_world
              request_mixed_validated eq_refl)
    as (c & props & fparts & Hcalls & Hform & _ & _ & _ & Hparts & _).
  - repeat constructor; by_filter.
  - exists c. split; [exact Hcalls |]. rewrite Hform, Hparts. reflexivity.
Defined.

(** ** The metadata part (C8, C10) *)

(** C8: a request that passes validation causes one outbound call, whose
    form starts with the part [data], the JSON text of the metadata. Its
    [hasFiles] is [true] if the request has at least one uploaded file,
    [false] if [req.files] is empty and absent if [req.files] is unset,
    so [true] exactly when the number of uploaded files is positive. It
    is computed from [req.files] alone: two requests with the same
    files send the same [hasFiles], whatever [hasFiles] text field or
    other body the client sent. *)
Theorem C8_hasFiles_is_computed env req w :
  validated req ->
  exists c pd rest,
    outbound_calls (handler env req w) = outbound_calls w ++ [c] /\
    call_form c =
      {| part_name := lit "data"; part_body := Json pd;
         part_filename := None; part_contentType := None |} :: rest /\
    get pd "hasFiles" =
      match files req with
      | None => JUndefined
      | Some l => JBool (bool_decide (0 < length l)%nat)
      end /\
    (get pd "hasFiles" = JBool true <->
       exists l, files req = Some l /\ (0 < length l)%nat) /\
    (forall env' req' w' c' pd' rest',
       files req' = files req ->
       outbound_calls (handler env' req' w') = outbound_calls w' ++ [c'] ->
       call_form c' =
         {| part_name := lit "data"; part_body := Json pd';
            part_filename := None; part_contentType := None |} :: rest' ->
       get pd' "hasFiles" = get pd "hasFiles").
Proof.
  intros Hv.
  destruct (build_form_head (pageData (body req) (files req)) (files req))
    as (rest & Hrest).
  exists (request_call env req), (pageData (body req) (files req)), rest.
  split; [by apply handler_calls |].
  split; [exact Hrest |].
  rewrite pageData_hasFiles.
  split; [by destruct (files req) |].
  split.
  { destruct (files req) as [l|]; simpl.
    - split.
      + intros [= H%bool_decide_eq_true_1]. by exists l.
      + intros (l' & [= <-] & Hlen). by rewrite bool_decide_eq_true_2.
    - split; [discriminate | by intros (l' & [=] & _)]. }
  intros env' req' w' c' pd' rest' Hfiles Hcalls Hform.
  rewrite handler_outbound in Hcalls. apply app_inv_head in Hcalls.
  destruct (decide (validated req')) as [Hv' | Hnv']; [| discriminate].
  injection Hcalls as <-.
  destruct (build_form_head (pageData (body req') (files req')) (files req'))
    as (rest2 & Hrest2).
  unfold request_call, make_call in Hform; simpl in Hform.
  rewrite Hrest2 in Hform. injection Hform as <- _.
  by rewrite pageData_hasFiles, Hfiles.
Qed.

Lemma C8_hasFiles_is_computed_witness :
  get (body request_mixed) "hasFiles" = str "false" /\
  exists c pd rest,
    outbound_calls (handler (upstream_ok JNull) request_mixed empty_world) = [c] /\
    call_form c =
      {| part_name := lit "data"; part_body := Json pd;
         part_filename := None; part_contentType := None |} :: rest /\
    get pd "hasFiles" = JBool true.
Proof.
  split; [reflexivity |].
  destruct (C8_hasFiles_is_computed (upstream_ok JNull) request_mixed empty_world
              request_mixed_validated) as (c & pd & rest & Hc & Hf & Hflag & _).
  exists c, pd, rest. split; [exact Hc |]. split; [exact Hf |]. exact Hflag.
Defined.




(** *** Text fields from the wire to [req.body] *)




Lemma to_js_FObj props : to_js (FObj props) = JBare (to_js_props props).
Proof.
  simpl. f_equal. induction props as [|[k v] r IH]; simpl; [done |]. by rewrite IH.
Qed.

















(** * Further properties of the code *)

(** ** The whitespace replacement *)

(** No whitespace code unit is left in [title.replace(/\s+/g, '+')]. *)
Theorem replace_whitespace_no_space s :
  Forall (fun c => is_space c = false) (replace_whitespace s).
Proof. apply replace_leaves_no_space. Qed.

(** Replacing a second time changes nothing. *)
Theorem replace_whitespace_idempotent s :
  replace_whitespace (replace_whitespace s) = replace_whitespace s.
Proof.
  rewrite <- (app_nil_r (replace_whitespace s)) at 1.
  rewrite replace_word; [by rewrite app_nil_r | apply replace_leaves_no_space].
Qed.

Lemma replace_runs_length in_run s :
  (length (replace_runs in_run s) <= length s)%nat.
Proof.
  revert in_run. induction s as [|c s IH]; intros in_run; simpl; [done |].
  pose proof (IH true). pose proof (IH false).
  destruct (is_space c); [destruct in_run |]; simpl; lia.
Qed.

Lemma replace_runs_keeps_plain in_run s :
  filter is_plain (replace_runs in_run s) = filter is_plain s.
Proof.
  revert in_run. induction s as [|c s IH]; intros in_run; simpl; [done |].
  destruct (is_space c) eqn:Hc.
  - rewrite (filter_cons_False _ c) by (intros [H _]; congruence).
    destruct in_run; [apply IH |].
    rewrite filter_cons_False by (by intros [_ H]). apply IH.
  - rewrite !filter_cons, IH. by repeat case_decide.
Qed.

(** The replacement never lengthens the title, and it keeps, in order,
    every code unit that is neither whitespace nor [+]. *)
Theorem replace_whitespace_keeps_text s :
  (length (replace_whitespace s) <= length s)%nat /\
  filter is_plain (replace_whitespace s) = filter is_plain s.
Proof.
  split; [apply replace_runs_length | apply replace_runs_keeps_plain].
Qed.

(** ** The handler as a whole *)

Lemma unlink_all_fs_eq fl w :
  fs (unlink_all fl w) = fs w ∖ list_to_set (map path (default [] fl)).
Proof.
  apply set_eq. intros x. rewrite elem_of_difference, elem_of_list_to_set.
  destruct fl as [l|]; simpl.
  - apply unlink_each_fs.
  - rewrite elem_of_nil. tauto.
Qed.

Lemma unlink_all_count fl w x :
  unlink_count x (unlink_all fl w) =
  (unlink_count x w + length (filter (fun f => path f = x) (default [] fl)))%nat.
Proof.
  destruct fl as [l|]; simpl; [apply unlink_each_count | lia].
Qed.

(** The upstream is called exactly when the body is an object and both
    required fields are truthy, and then once. *)
Theorem handler_calls_upstream_iff_validated env req w :
  outbound_calls (handler env req w) =
    outbound_calls w ++ (if decide (validated req) then [request_call env req] else []).
Proof. apply handler_outbound. Qed.

Lemma handler_fs env req w :
  fs (handler env req w) =
    if decide (validated req)
    then fs w ∖ list_to_set (request_paths req)
    else fs w.
Proof.
  destruct (decide (validated req)) as [Hv | Hnv].
  - destruct (handler_after_call env req w Hv) as (r & ->).
    simpl. by rewrite unlink_all_fs_eq.
  - by destruct (handler_not_validated env req w Hnv) as (b & ->).
Qed.

(** What the handler does to the Temporary Store: a request that reaches
    the upstream call loses exactly the paths of its own files, whatever
    the call returns; a request that fails validation loses nothing. No
    other file is ever removed. *)
Theorem handler_store_effect env req w :
  fs (handler env req w) =
    if decide (validated req)
    then fs w ∖ list_to_set (request_paths req)
    else fs w.
Proof. apply handler_fs. Qed.

(** How often the handler attempts to unlink a path: once per file of
    the request stored under it when the upstream call was reached,
    never otherwise. *)
Theorem handler_unlink_attempts env req w x :
  unlink_count x (handler env req w) =
    (unlink_count x w +
     if decide (validated req)
     then length (filter (fun f => path f = x) (request_files req))
     else 0)%nat.
Proof.
  destruct (decide (validated req)) as [Hv | Hnv].
  - destruct (handler_after_call env req w Hv) as (r & ->).
    rewrite unlink_count_emit, unlink_all_count, unlink_count_emit. simpl.
    unfold request_files. destruct (files req); simpl; lia.
  - destruct (handler_not_validated env req w Hnv) as (b & ->).
    rewrite unlink_count_emit. simpl. lia.
Qed.

Lemma unlink_each_trace {A} (pth : A -> jstring) l : forall w,
  exists oks,
    length oks = length l /\
    trace (fold_left (fun w f => unlink_logged (pth f) w) l w) =
      trace w ++ zip_with EvUnlink (map pth l) oks.
Proof.
  induction l as [|f l IH]; intros w; simpl.
  - exists []. by rewrite app_nil_r.
  - destruct (IH (unlink_logged (pth f) w)) as (oks & Hlen & ->).
    exists (bool_decide (pth f ∈ fs w) :: oks). split; [simpl; lia |].
    unfold unlink_logged, emit; simpl. by rewrite <- app_assoc.
Qed.

(** The order of effects once validation has passed: the outbound call,
    then one unlink per file of the request in arrival order, and only
    then the response. *)
Theorem handler_cleans_up_before_responding env req w :
  validated req ->
  exists oks r,
    length oks = length (request_paths req) /\
    new_events w (handler env req w) =
      EvPost (request_call env req)
      :: zip_with EvUnlink (request_paths req) oks ++ [EvSend r].
Proof.
  intros Hv. destruct (handler_after_call env req w Hv) as (r & ->).
  unfold new_events, request_paths, request_files, emit; simpl.
  destruct (files req) as [l|]; simpl.
  - destruct (unlink_each_trace path l
                {| fs := fs w; trace := trace w ++ [EvPost (request_call env req)] |})
      as (oks & Hlen & ->).
    exists oks, r. split; [by rewrite length_map |].
    simpl. rewrite <- !app_assoc. by rewrite drop_app_length.
  - exists [], r. split; [done |].
    rewrite <- !app_assoc. by rewrite drop_app_length.
Qed.

Lemma handler_cleans_up_before_responding_witness :
  exists oks r,
    length oks = 4%nat /\
    new_events empty_world (handler (upstream_ok JNull) request_mixed empty_world) =
      EvPost (request_call (upstream_ok JNull) request_mixed)
      :: zip_with EvUnlink (request_paths request_mixed) oks ++ [EvSend r].
Proof.
  apply (handler_cleans_up_before_responding (upstream_ok JNull) request_mixed
           empty_world request_mixed_validated).
Defined.

Lemma extract_pageUrl_throws data key title w :
  first_truthy data = None ->
  ToString key = None \/ truthy_non_string title ->
  extract_pageUrl data key title w =
    (w, inl (new_Error
               match ToString key with
               | None => lit "Cannot convert object to primitive value"
               | Some _ => lit "pageToBeCreatedTitle?.replace is not a function"
               end)).
Proof.
  unfold first_truthy, extract_pageUrl, or_else; simpl. intros Hnone Hbad.
  repeat (match goal with
          | H : context [truthy ?v] |- _ => destruct (truthy v); [discriminate |]
          end).
  unfold fallback_url, to_string, bind.
  destruct (ToString key) as [k|]; [| done].
  destruct Hbad as [[=] | [Ht Hns]].
  destruct title; try done. by destruct (Hns s).
Qed.

(** After a successful upstream call whose body has no truthy URL
    field, building the fallback URL can throw: first when the space key
    does not convert to a string (an object that multer built from a
    bracketed field name), and otherwise when the title is truthy but
    not a string (an array, when the field was sent twice). Both pass
    validation, the upstream call has been made, and the client is told
    with a 500 that the page could not be generated. *)
Theorem non_string_title_fails_after_upstream_success env req w r :
  validated req ->
  axios_post env (request_call env req) = Resolved r ->
  find truthy (map (get (up_data r))
                   ["pageURL"; "pageUrl"; "confluencePageUrl"; "url"]%string) = None ->
  ToString (get (body req) "wikiSpaceKey") = None \/
  truthy_non_string (get (body req) "pageToBeCreatedTitle") ->
  outbound_calls (handler env req w) = outbound_calls w ++ [request_call env req] /\
  responses (handler env req w) =
    responses w ++
    [{| status := 500;
        json_body :=
          Some (JObj [ (lit "status", JStr (lit "error"));
                       (lit "error", JStr (lit "Failed to generate Confluence page"));
                       (lit "message",
                         JStr match ToString (get (body req) "wikiSpaceKey") with
                              | None => lit "Cannot convert object to primitive value"
                              | Some _ =>
                                  lit "pageToBeCreatedTitle?.replace is not a function"
                              end) ]) |}].
Proof.
  intros Hv Hr Hnone Hbad. split; [by apply handler_calls |].
  unfold handler. rewrite (try_block_validated _ _ _ Hv).
  unfold bind, post_upstream. rewrite Hr.
  rewrite (extract_pageUrl_throws _ _ _ _ Hnone Hbad).
  match goal with
  | |- context [catch_block req ?e ?w0] =>
      destruct (catch_block_run req e w0) as (resp & -> & ->)
  end.
  simpl. rewrite responses_emit, unlink_all_responses, responses_emit, app_nil_r.
  done.
Qed.

Lemma non_string_title_fails_after_upstream_success_witness :
  responses (handler (upstream_ok (JObj [prop "id" (JNum (lit "7"))]))
                     request_title_twice empty_world) =
    [{| status := 500;
        json_body :=
          Some (JObj [ prop "status" (str "error");
                       prop "error" (str "Failed to generate Confluence page");
                       prop "message"
                         (str "pageToBeCreatedTitle?.replace is not a function") ]) |}].
Proof.
  apply (non_string_title_fails_after_upstream_success
           (upstream_ok (JObj [prop "id" (JNum (lit "7"))])) request_title_twice
           empty_world
           {| up_status := 200; up_data := JObj [prop "id" (JNum (lit "7"))] |}).
  - by repeat split.
  - reflexivity.
  - reflexivity.
  - right. split; [reflexivity | intros s; discriminate].
Defined.

(** The success body is sent only for a validated request whose
    upstream call resolved, and its [pageUrl] is truthy. *)
Theorem success_only_after_resolved_call env req w url :
  responses (handler env req w) =
    responses w ++ [{| status := 200; json_body := Some (success_response url) |}] ->
  validated req /\
  (exists r, axios_post env (request_call env req) = Resolved r) /\
  truthy url = true.
Proof.
  intros Hresp. destruct (decide (validated req)) as [Hv | Hnv].
  - split; [done |].
    destruct (axios_post env (request_call env req)) as [r | e] eqn:Hax.
    + split; [by eexists |].
      destruct (extract_pageUrl_pure (up_data r) (get (body req) "wikiSpaceKey")
                  (get (body req) "pageToBeCreatedTitle")) as ([e | u] & Hres).
      * exfalso. revert Hresp. unfold handler.
        rewrite (try_block_validated _ _ _ Hv). unfold bind, post_upstream.
        rewrite Hax, Hres.
        destruct (catch_block_run req e (emit (EvPost (request_call env req)) w))
          as (resp & -> & ->).
        simpl. rewrite responses_emit, unlink_all_responses, responses_emit, app_nil_r.
        intros [= H]%app_inv_head.
        destruct (err_response e); [| destruct (err_request e)]; discriminate.
      * rewrite (handler_resolved_responses _ _ _ _ _ Hv Hax Hres) in Hresp.
        apply app_inv_head in Hresp. injection Hresp as ->.
        destruct Hv as (_ & Ht & Hk). specialize (Hres w). revert Hres.
        unfold extract_pageUrl, or_else.
        repeat (match goal with
                | |- context [if truthy ?v then _ else _] =>
                    let Htv := fresh "Htv" in
                    destruct (truthy v) eqn:Htv;
                    [intros [= Heq]; by rewrite <- Heq |]
                end).
        unfold fallback_url, to_string, bind.
        destruct (ToString (get (body req) "wikiSpaceKey")); [| discriminate].
        destruct (get (body req) "pageToBeCreatedTitle"); simpl;
          try discriminate; intros [= Heq]; by rewrite <- Heq.
    + exfalso. revert Hresp. rewrite (handler_rejected _ _ _ _ Hv Hax).
      destruct (catch_block_run req e (emit (EvPost (request_call env req)) w))
        as (resp & -> & ->).
      simpl. rewrite responses_emit, unlink_all_responses, responses_emit, app_nil_r.
      intros [= H]%app_inv_head.
      destruct (err_response e); [| destruct (err_request e)]; discriminate.
  - exfalso. destruct (handler_not_validated env req w Hnv) as (b & Hh).
    rewrite Hh, responses_emit in Hresp. apply app_inv_head in Hresp. discriminate.
Qed.

Lemma success_only_after_resolved_call_witness :
  validated request_A /\
  (exists r, axios_post (upstream_ok (JObj [prop "url" (str "https://wiki/x")]))
               (request_call (upstream_ok (JObj [prop "url" (str "https://wiki/x")]))
                             request_A) = Resolved r) /\
  truthy (str "https://wiki/x") = true.
Proof.
  apply (success_only_after_resolved_call
           (upstream_ok (JObj [prop "url" (str "https://wiki/x")]))
           request_A empty_world).
  reflexivity.
Defined.

(** ** The route, from intake to response *)

Lemma upload_parts_cases parts w :
  (Forall allowed parts /\
   upload_parts parts [] w = (write_all parts w, inr (map store_file parts))) \/
  (exists ok bad rest,
     parts = ok ++ bad :: rest /\ Forall allowed ok /\ ~ allowed bad /\
     upload_parts parts [] w =
       (removeUploadedFiles (map store_file ok) (write_all ok w),
        inl (new_Error (lit "Unexpected field: " ++ in_fieldname bad)))).
Proof.
  destruct (decide (Forall allowed parts)) as [Hall | Hnot].
  - left. split; [done |]. by rewrite (upload_parts_accept _ _ _ Hall).
  - right. apply not_Forall_Exists in Hnot; [| intros p; apply _].
    apply first_refused in Hnot as (ok & bad & rest & -> & Hok & Hbad).
    exists ok, bad, rest. repeat split; try done.
    by rewrite (upload_parts_reject _ _ _ _ _ Hok Hbad).
Qed.

Lemma stored_files_accepted parts :
  Forall allowed parts -> Forall accepted (map store_file parts).
Proof. intros H. apply Forall_map. by eapply Forall_impl. Qed.

Lemma write_all_fs_eq parts w :
  fs (write_all parts w) = list_to_set (map stored_path parts) ∪ fs w.
Proof.
  apply set_eq. intros x.
  rewrite write_all_fs, elem_of_union, elem_of_list_to_set. tauto.
Qed.

(** What the handler receives from multer: when the intake succeeds on a
    multipart body, [req.files] has one element for each file part that
    carries a file name, in arrival order, with the field name, original
    name, MIME type and size of its part, under one of the four allowed
    field names, and stored at [uploads/<ms>-<name>]; the text fields
    are untouched; the store has gained exactly those paths and nothing
    was sent. *)
Theorem intake_hands_over_accepted_files i parts w w' req :
  inc_file_parts i = Some parts ->
  upload_any i w = (w', inr req) ->
  exists l,
    files req = Some l /\
    body req = inc_body i /\
    length l = length (filter (fun p => in_originalname p <> []) parts) /\
    (forall n p,
       filter (fun p => in_originalname p <> []) parts !! n = Some p ->
       exists f,
         l !! n = Some f /\
         fieldname f = in_fieldname p /\
         originalname f = in_originalname p /\
         mimetype f = in_mimetype p /\
         size f = in_size p /\
         path f = lit "uploads/" ++ decimal_N (in_now p) ++ lit "-"
                    ++ in_originalname p /\
         fieldname f ∈ [lit "tddIrdFiles"; lit "postmanFiles";
                        lit "commFiles"; lit "files"]) /\
    fs w' = list_to_set (map path l) ∪ fs w /\
    responses w' = responses w /\ outbound_calls w' = outbound_calls w.
Proof.
  intros Hparts. unfold upload_any. rewrite Hparts. unfold bind.
  fold (named_parts parts).
  destruct (upload_parts_cases (named_parts parts) w)
    as [[Hall ->] | (ok & bad & rest & _ & _ & _ & ->)]; [| discriminate].
  intros [= <- <-]. exists (map store_file (named_parts parts)). simpl.
  rewrite paths_of_stored, write_all_fs_eq, write_all_responses, write_all_calls.
  rewrite length_map. repeat split; try done.
  intros n p Hp. exists (store_file p).
  rewrite list_lookup_fmap, Hp. repeat split; try done.
  rewrite Forall_forall in Hall. apply Hall. by eapply list_elem_of_lookup_2.
Qed.

Lemma intake_hands_over_accepted_files_witness :
  exists l,
    files {| content_type := inc_content_type scenario_B; body := inc_body scenario_B;
             files := Some [store_file (sample_file "tddIrdFiles" "design.pdf" 1700000000000)] |}
      = Some l /\
    map path l = [lit "uploads/1700000000000-design.pdf"] /\
    map mimetype l = [lit "text/plain"].
Proof.
  destruct (intake_hands_over_accepted_files scenario_B
              [sample_file "tddIrdFiles" "design.pdf" 1700000000000]
              empty_world _ _ eq_refl eq_refl)
    as (l & Hfiles & _).
  exists l. split; [exact Hfiles |].
  injection Hfiles as <-. split; reflexivity.
Defined.




(** End to end, for a multipart request whose parts are all allowed and
    whose body passes validation: whatever the upstream call returns,
    none of the paths the request stored is left, and a store that did
    not hold those paths before is exactly as it was. *)
Theorem route_leaves_no_file_after_upstream_call env ct b parts w :
  Forall allowed (filter (fun p => in_originalname p <> []) parts) ->
  validated {| content_type := ct; body := b;
               files := Some (map store_file
                     (filter (fun p => in_originalname p <> []) parts)) |} ->
  let w' := post_generate_confluence env
              {| inc_content_type := ct; inc_body := b; inc_file_parts := Some parts |} w in
  fs w' = fs w ∖ list_to_set (map stored_path (filter (fun p => in_originalname p <> []) parts)) /\
  ((forall p, p ∈ filter (fun p => in_originalname p <> []) parts ->
              stored_path p ∉ fs w) ->
   fs w' = fs w).
Proof.
  change (filter (fun p => in_originalname p <> []) parts) with (named_parts parts).
  intros Hall Hv w'. subst w'.
  unfold post_generate_confluence, upload_any; simpl. unfold bind.
  rewrite (upload_parts_accept _ _ _ Hall); simpl.
  rewrite handler_fs, decide_True by done.
  unfold request_paths, request_files; simpl.
  rewrite paths_of_stored, write_all_fs_eq.
  split.
  - apply set_eq. intros x. rewrite !elem_of_difference, elem_of_union. tauto.
  - intros Hfresh. apply set_eq. intros x.
    rewrite elem_of_difference, elem_of_union, elem_of_list_to_set.
    split; [tauto |]. intros Hx. split; [by right |].
    intros (p & -> & Hp)%list_elem_of_fmap. by apply (Hfresh p).
Qed.

Lemma route_leaves_no_file_after_upstream_call_witness :
  fs (post_generate_confluence (upstream_fails (new_Error (lit "socket hang up")))
        (multipart [prop "pageToBeCreatedTitle" (str "Service X");
                    prop "wikiSpaceKey" (str "ENG")]
                   [sample_file "files" "notes.txt" 1700000000000;
                    sample_file "commFiles" "mail.eml" 1700000000001])
        empty_world) = ∅.
Proof.
  apply (route_leaves_no_file_after_upstream_call
           (upstream_fails (new_Error (lit "socket hang up")))
           (str "multipart/form-data; boundary=x")
           (JObj [prop "pageToBeCreatedTitle" (str "Service X");
                  prop "wikiSpaceKey" (str "ENG")])
           [sample_file "files" "notes.txt" 1700000000000;
            sample_file "commFiles" "mail.eml" 1700000000001]
           empty_world).
  - repeat constructor; by_filter.
  - by repeat split.
  - intros p _. apply not_elem_of_empty.
Defined.

(** End to end, for a multipart request whose parts are all allowed but
    whose body fails validation: the response is a 400, no upstream call
    is made, and every file the request stored is still in the store. *)
Theorem route_validation_exit_keeps_every_file env ct b parts w :
  Forall allowed (filter (fun p => in_originalname p <> []) parts) ->
  ~ validated {| content_type := ct; body := b;
                 files := Some (map store_file
                       (filter (fun p => in_originalname p <> []) parts)) |} ->
  let w' := post_generate_confluence env
              {| inc_content_type := ct; inc_body := b; inc_file_parts := Some parts |} w in
  fs w' = list_to_set (map stored_path (filter (fun p => in_originalname p <> []) parts)) ∪ fs w /\
  outbound_calls w' = outbound_calls w /\
  exists body400, responses w' = responses w ++ [{| status := 400; json_body := Some body400 |}].
Proof.
  change (filter (fun p => in_originalname p <> []) parts) with (named_parts parts).
  intros Hall Hnv w'. subst w'.
  unfold post_generate_confluence, upload_any; simpl. unfold bind.
  rewrite (upload_parts_accept _ _ _ Hall); simpl.
  rewrite handler_fs, handler_outbound.
  rewrite !decide_False by done.
  rewrite write_all_fs_eq, write_all_calls, app_nil_r.
  split; [done |]. split; [done |].
  destruct (handler_not_validated env _ (write_all (named_parts parts) w) Hnv)
    as (b400 & ->).
  exists b400. by rewrite responses_emit, write_all_responses.
Qed.

Lemma route_validation_exit_keeps_every_file_witness :
  fs (post_generate_confluence (upstream_ok JNull) scenario_B empty_world) =
    list_to_set [lit "uploads/1700000000000-design.pdf"] ∪ ∅.
Proof.
  apply (route_validation_exit_keeps_every_file (upstream_ok JNull)
           (str "multipart/form-data; boundary=x")
           (JObj [prop "pageToBeCreatedTitle" (str "Service X")])
           [sample_file "tddIrdFiles" "design.pdf" 1700000000000] empty_world).
  - repeat constructor; by_filter.
  - intros (_ & _ & Hk). discriminate.
Defined.

(** ** The test endpoint *)

Lemma write_all_unlink_count parts : forall w x,
  unlink_count x (write_all parts w) = unlink_count x w.
Proof.
  induction parts as [|p parts IH]; intros w x; [done |].
  unfold write_all in *; simpl. rewrite IH.
  unfold write_file. rewrite unlink_count_emit. unfold unlink_count; simpl. lia.
Qed.

(** [POST /test-request] never cleans up: when the intake accepts the
    parts, every file it stored is still in the store after the echo,
    no unlink has been attempted and no upstream call made. The echo
    lists the files in arrival order. *)
Theorem test_request_leaves_uploads env url headers ct b parts w :
  Forall allowed (filter (fun p => in_originalname p <> []) parts) ->
  let w' := post_test_request env url headers
              {| inc_content_type := ct; inc_body := b; inc_file_parts := Some parts |} w in
  fs w' = list_to_set (map stored_path (filter (fun p => in_originalname p <> []) parts)) ∪ fs w /\
  (forall x, unlink_count x w' = unlink_count x w) /\
  outbound_calls w' = outbound_calls w /\
  exists echo,
    responses w' = responses w ++ [{| status := 200; json_body := Some echo |}] /\
    get echo "body" = b /\
    get echo "files" =
      JArr (map (fun p => file_summary (store_file p))
            (filter (fun p => in_originalname p <> []) parts)).
Proof.
  change (filter (fun p => in_originalname p <> []) parts) with (named_parts parts).
  intros Hall w'. subst w'.
  unfold post_test_request, upload_any; simpl. unfold bind.
  rewrite (upload_parts_accept _ _ _ Hall); simpl.
  unfold test_request; simpl.
  rewrite write_all_fs_eq, outbound_calls_emit, responses_emit, app_nil_r.
  rewrite write_all_calls, write_all_responses.
  split; [done |]. split.
  - intros x. rewrite unlink_count_emit, write_all_unlink_count; simpl. lia.
  - split; [done |]. eexists. split; [done |]. split; [done |].
    simpl. by rewrite map_map.
Qed.

Lemma test_request_leaves_uploads_witness :
  fs (post_test_request (upstream_ok JNull) (str "/test-request") (JObj [])
        (multipart [] [sample_file "files" "notes.txt" 1700000000000]) empty_world) =
    list_to_set [lit "uploads/1700000000000-notes.txt"] ∪ ∅.
Proof.
  apply (test_request_leaves_uploads (upstream_ok JNull) (str "/test-request") (JObj [])
           (str "multipart/form-data; boundary=x") (JObj [])
           [sample_file "files" "notes.txt" 1700000000000] empty_world).
  repeat constructor; by_filter.
Defined.

(** ** The earlier revision (server.js) *)

Lemma cleanup_strict_eq l w : cleanup_strict (Some l) w = unlink_each_strict l w.
Proof. by destruct l. Qed.

Lemma unlink_strict_cases p w :
  (p ∈ fs w /\
   unlink_strict p w =
     (emit (EvUnlink p true) {| fs := fs w ∖ {[p]}; trace := trace w |}, inr tt)) \/
  ((p ∉ fs w) /\ exists e, unlink_strict p w = (emit (EvUnlink p false) w, inl e)).
Proof.
  unfold unlink_strict. case_bool_decide; [left | right]; split; try done.
  by eexists.
Qed.

(** Whether it ends or throws, the loop sends nothing and removes only
    paths of the list. *)
Lemma unlink_each_strict_frame l : forall w w' res,
  unlink_each_strict l w = (w', res) ->
  responses w' = responses w /\ outbound_calls w' = outbound_calls w /\
  (forall x, x ∈ fs w' -> x ∈ fs w) /\
  (forall x, x ∈ fs w -> x ∉ map path l -> x ∈ fs w').
Proof.
  induction l as [|f l IH]; intros w w' res; simpl.
  - by intros [= <- <-].
  - unfold bind.
    destruct (unlink_strict_cases (path f) w) as [[Hin ->] | [Hout [e ->]]].
    + intros (Hr & Hc & Hsub & Hkeep)%IH. revert Hr Hc.
      rewrite responses_emit, outbound_calls_emit, !app_nil_r.
      intros -> ->. repeat split; try done.
      * intros x Hx%Hsub. simpl in Hx. set_unfold. tauto.
      * intros x Hx [Hne Hnot]%not_elem_of_cons. apply Hkeep; [| done].
        simpl. set_unfold. tauto.
    + intros [= <- <-]. rewrite responses_emit, outbound_calls_emit, !app_nil_r.
      repeat split; done.
Qed.

Lemma unlink_each_strict_ok_fs l : forall w w',
  unlink_each_strict l w = (w', inr tt) ->
  forall x, x ∈ fs w' <-> x ∈ fs w /\ x ∉ map path l.
Proof.
  induction l as [|f l IH]; intros w w'; simpl.
  - intros [= <-] x. rewrite elem_of_nil. tauto.
  - unfold bind.
    destruct (unlink_strict_cases (path f) w) as [[Hin ->] | [Hout [e ->]]];
      [| discriminate].
    intros H x. rewrite (IH _ _ H x), not_elem_of_cons. simpl.
    rewrite elem_of_difference, elem_of_singleton. tauto.
Qed.

Lemma unlink_each_strict_ok_iff l : forall w,
  (exists w', unlink_each_strict l w = (w', inr tt)) <-> all_unlinkable l w.
Proof.
  unfold all_unlinkable.
  induction l as [|f l IH]; intros w; simpl.
  - split; [intros _; split; constructor | intros _; by eexists].
  - unfold bind. rewrite NoDup_cons, Forall_cons.
    destruct (unlink_strict_cases (path f) w) as [[Hin ->] | [Hout [e ->]]].
    + rewrite IH; simpl. rewrite !Forall_forall. split.
      * intros [Hnd Hall]. repeat split; try done.
        -- intros Hf. apply Hall in Hf. set_unfold. tauto.
        -- intros x Hx. apply Hall in Hx. set_unfold. tauto.
      * intros [[Hf Hnd] [_ Hall]]. split; [done |].
        intros x Hx. apply elem_of_difference. split; [by apply Hall |].
        rewrite elem_of_singleton. by intros ->.
    + split; [by intros [w' [=]] | tauto].
Qed.

Lemma handler_v1_rejected env fields l w e :
  axios_post env (request_call_v1 env fields l) = Rejected e ->
  handler_v1 env fields l w =
    emit (EvSend failure_response_v1)
      (unlink_all (Some l) (emit (EvPost (request_call_v1 env fields l)) w)).
Proof.
  intros Hax. unfold handler_v1, try_block_v1, bind, post_upstream.
  rewrite Hax. unfold catch_block_v1, bind. by rewrite cleanup_run.
Qed.

Lemma handler_v1_resolved env fields l w r :
  axios_post env (request_call_v1 env fields l) = Resolved r ->
  exists w2 res,
    unlink_each_strict l (emit (EvPost (request_call_v1 env fields l)) w) = (w2, res) /\
    handler_v1 env fields l w =
      match res with
      | inr _ => emit (EvSend {| status := 200; json_body := Some (up_data r) |}) w2
      | inl _ => emit (EvSend failure_response_v1) (unlink_all (Some l) w2)
      end.
Proof.
  intros Hax. unfold handler_v1, try_block_v1, bind, post_upstream.
  rewrite Hax, cleanup_strict_eq.
  destruct (unlink_each_strict l (emit (EvPost (request_call_v1 env fields l)) w))
    as [w2 [e | []]] eqn:Hloop; eexists _, _; (split; [done |]); [| done].
  unfold catch_block_v1, bind. by rewrite cleanup_run.
Qed.

(** The earlier revision has no exit before its cleanup: after the
    handler, whatever the upstream call and the first cleanup loop did,
    the store has lost exactly the paths of the request's files. *)
Theorem v1_handler_store_effect env fields l w :
  fs (handler_v1 env fields l w) = fs w ∖ list_to_set (map path l).
Proof.
  apply set_eq. intros x. rewrite elem_of_difference, elem_of_list_to_set.
  destruct (axios_post env (request_call_v1 env fields l)) as [r | e] eqn:Hax.
  - destruct (handler_v1_resolved env fields l w r Hax) as (w2 & res & Hloop & ->).
    destruct res as [e | []].
    + apply unlink_each_strict_frame in Hloop as (_ & _ & Hsub & Hkeep).
      simpl. rewrite unlink_each_fs. simpl in Hsub, Hkeep. split.
      * intros [Hx Hn]. split; [by apply Hsub | done].
      * intros [Hx Hn]. split; [by apply Hkeep | done].
    + simpl. by rewrite (unlink_each_strict_ok_fs _ _ _ Hloop).
  - rewrite (handler_v1_rejected _ _ _ _ _ Hax). simpl. by rewrite unlink_each_fs.
Qed.


Lemma handler_v1_responses env fields l w :
  responses (handler_v1 env fields l w) =
    responses w ++
    [match axios_post env (request_call_v1 env fields l) with
     | Resolved r =>
         if decide (all_unlinkable l w)
         then {| status := 200; json_body := Some (up_data r) |}
         else failure_response_v1
     | Rejected _ => failure_response_v1
     end].
Proof.
  destruct (axios_post env (request_call_v1 env fields l)) as [r | e] eqn:Hax.
  - destruct (handler_v1_resolved env fields l w r Hax) as (w2 & res & Hloop & ->).
    pose proof (unlink_each_strict_frame _ _ _ _ Hloop) as (Hr & _).
    rewrite responses_emit, app_nil_r in Hr.
    assert (Hiff := unlink_each_strict_ok_iff l
                      (emit (EvPost (request_call_v1 env fields l)) w)).
    unfold all_unlinkable in *. simpl in Hiff.
    destruct res as [e | []].
    + rewrite decide_False.
      * by rewrite responses_emit, unlink_all_responses, Hr.
      * intros Hok. apply Hiff in Hok as [w' Hw']. congruence.
    + rewrite decide_True; [by rewrite responses_emit, Hr |].
      apply Hiff. by eexists.
  - rewrite (handler_v1_rejected _ _ _ _ _ Hax).
    by rewrite responses_emit, unlink_all_responses, responses_emit, app_nil_r.
Qed.


(** End to end in the earlier revision, for parts that are all allowed
    and an upstream call that succeeds: the client gets the 200 exactly
    when no two parts share both the millisecond of storage and the
    original name. If two do, the second unlink of the shared path
    throws and the client is told that the generation failed. *)
Theorem v1_route_reports_failure_on_path_collision env fields parts w r :
  Forall allowed (filter (fun p => in_originalname p <> []) parts) ->
  axios_post env (request_call_v1 env fields (map store_file
        (filter (fun p => in_originalname p <> []) parts)))
    = Resolved r ->
  responses (post_generate_confluence_v1 env fields parts w) =
    responses w ++
    [if decide (NoDup (map (fun p => (in_now p, in_originalname p))
          (filter (fun p => in_originalname p <> []) parts)))
     then {| status := 200; json_body := Some (up_data r) |}
     else failure_response_v1].
Proof.
  change (filter (fun p => in_originalname p <> []) parts) with (named_parts parts).
  unfold post_generate_confluence_v1.
  remember (named_parts parts) as ps eqn:Hps. clear Hps parts.
  intros Hall Hax.
  rewrite (upload_parts_accept _ _ _ Hall); simpl.
  rewrite handler_v1_responses, Hax, write_all_responses. do 2 f_equal.
  assert (Hnd : NoDup (map stored_path ps) <->
                NoDup (map (fun p => (in_now p, in_originalname p)) ps)).
  { clear. induction ps as [|p ps IH]; simpl; [by split; constructor |].
    rewrite !NoDup_cons, IH, !list_elem_of_fmap.
    assert (Hsame : (exists q, stored_path p = stored_path q /\ q ∈ ps) <->
                    (exists q, (in_now p, in_originalname p) =
                               (in_now q, in_originalname q) /\ q ∈ ps)).
    { split; intros (q & Hq & Hin); exists q; (split; [| done]).
      - apply stored_path_inj in Hq as [-> ->]. done.
      - injection Hq as Hn Ho. by apply stored_path_inj. }
    tauto. }
  assert (Hpresent : Forall (fun p => p ∈ fs (write_all ps w))
                       (map path (map store_file ps))).
  { rewrite paths_of_stored. apply Forall_forall. intros x Hx.
    apply write_all_fs. by right. }
  destruct (decide (NoDup (map (fun p => (in_now p, in_originalname p)) ps)))
    as [Hok | Hno].
  - rewrite decide_True; [done |].
    split; [rewrite paths_of_stored; by apply Hnd | done].
  - rewrite decide_False; [done |].
    intros [Hnd' _]. rewrite paths_of_stored in Hnd'. by apply Hno, Hnd.
Qed.

Lemma v1_route_reports_failure_on_path_collision_witness :
  responses (post_generate_confluence_v1
               (upstream_ok (JObj [prop "pageURL" (str "https://wiki/x")]))
               [prop "pageToBeCreatedTitle" (str "Service X")]
               [sample_file "files" "report.pdf" 1700000000000;
                sample_file "files" "report.pdf" 1700000000000]
               empty_world) = [failure_response_v1].
Proof.
  apply (v1_route_reports_failure_on_path_collision
           (upstream_ok (JObj [prop "pageURL" (str "https://wiki/x")]))
           [prop "pageToBeCreatedTitle" (str "Service X")]
           [sample_file "files" "report.pdf" 1700000000000;
            sample_file "files" "report.pdf" 1700000000000]
           empty_world
           {| up_status := 200; up_data := JObj [prop "pageURL" (str "https://wiki/x")] |}).
  - repeat constructor; by_filter.
  - reflexivity.
Defined.
